(** * hasher-matcher-actioner: labels, action evaluation, wire and record codecs

    A shallow embedding of
      - hmalib/common/actioner_models.py  (labels, action and reaction
        messages, webhook action performers),
      - hmalib/lambdas/actions/action_evaluator.py  (the evaluator lambda),
      - hmalib/dto.py  (the DynamoDB records of the PDQ pipeline),
    and the properties of the specification checked against them.

    Python values are modelled as follows.  A [str] is a [string] (code
    points below 256); an [int] is a [Z]; a [list] is a [list]; a [dict] is
    the list of its items in insertion order; a dataclass is a [Record]; an
    exception is a constructor of [exn] carried by [result]. *)

From Stdlib Require Import String Ascii List ZArith NArith Bool Lia DecimalString.
From Stdlib Require DecimalZ.
Import ListNotations.
Open Scope string_scope.

Set Implicit Arguments.
Set Warnings "-register-all".

(** ** Exceptions and fallible computations *)

Inductive exn : Type :=
| TypeError (msg : string)
| KeyError (k : string)
| AttributeError (name : string)
| JSONDecodeError
| NotImplementedError.

Inductive result (A : Type) : Type :=
| Ok (a : A)
| Raise (e : exn).
Arguments Ok {A} a.
Arguments Raise {A} e.

Definition rbind {A B} (r : result A) (k : A -> result B) : result B :=
  match r with
  | Ok a => k a
  | Raise e => Raise e
  end.

Declare Scope result_scope.
Delimit Scope result_scope with result.
Notation "x <- r ;; k" := (rbind r (fun x => k))
  (at level 61, r at next level, right associativity) : result_scope.

Fixpoint rmap {A B} (f : A -> result B) (l : list A) : result (list B) :=
  match l with
  | [] => Ok []
  | x :: l' =>
      (y <- f x ;; ys <- rmap f l' ;; Ok (y :: ys))%result
  end.

(** ** The Label model (actioner_models.py, class Label) *)

Record Label : Type := mkLabel { key : string; value : string }.

Definition Label_eqb (a b : Label) : bool :=
  (key a =? key b) && (value a =? value b).

(** *** Python's rich comparison

    [__eq__] returns a truth value or the singleton [NotImplemented], or
    raises.  The operator [==] asks the left operand, then the right operand
    (reflected), and falls back on object identity when both decline.  [!=]
    is its negation, as none of the classes below defines [__ne__]. *)

Inductive richcmp : Type :=
| NotImplemented
| Truth (b : bool).

(** The values a label may be compared with.  [PyObject cls addr] is an
    instance, at address [addr], of a class that inherits [object.__eq__].
    [PyCustom cls addr eq] is an instance of a class with an [__eq__] of its
    own; [eq l] is what that method does when it is given the label [l]. *)
Inductive pyobj : Type :=
| PyNone
| PyBool (b : bool)
| PyInt (z : Z)
| PyStr (s : string)
| PyObject (cls : string) (addr : nat)
| PyCustom (cls : string) (addr : nat) (eq : Label -> result richcmp)
| PyLabel (l : Label).

Definition isinstance_Label (o : pyobj) : bool :=
  match o with
  | PyLabel _ => true
  | _ => false
  end.

(** [Label.__eq__]:
      if not isinstance(another_label, Label): return NotImplemented
      return self.key == another_label.key and self.value == another_label.value *)
Definition Label__eq__ (self : Label) (another_label : pyobj) : richcmp :=
  match another_label with
  | PyLabel other =>
      Truth ((key self =? key other) && (value self =? value other))
  | _ => NotImplemented
  end.

Definition Z_of_bool (b : bool) : Z := if b then 1%Z else 0%Z.

(** [type(self).__eq__(self, other)] for every value of the model.  Of a
    class with its own [__eq__] only the answer to a label is modelled. *)
Definition dunder_eq (self other : pyobj) : result richcmp :=
  match self with
  | PyLabel l => Ok (Label__eq__ l other)
  | PyNone =>
      match other with PyNone => Ok (Truth true) | _ => Ok NotImplemented end
  | PyBool b =>
      match other with
      | PyBool c => Ok (Truth (Bool.eqb b c))
      | PyInt z => Ok (Truth (Z.eqb (Z_of_bool b) z))
      | _ => Ok NotImplemented
      end
  | PyInt z =>
      match other with
      | PyInt y => Ok (Truth (Z.eqb z y))
      | PyBool c => Ok (Truth (Z.eqb z (Z_of_bool c)))
      | _ => Ok NotImplemented
      end
  | PyStr s =>
      match other with PyStr t => Ok (Truth (s =? t)) | _ => Ok NotImplemented end
  | PyObject c a =>
      match other with
      | PyObject d b =>
          if (c =? d) && Nat.eqb a b then Ok (Truth true) else Ok NotImplemented
      | _ => Ok NotImplemented
      end
  | PyCustom _ _ eq =>
      match other with
      | PyLabel l => eq l
      | _ => Ok NotImplemented
      end
  end.

(** Object identity ([is]).  Labels are compared here as distinct objects
    only when both [__eq__] declined, which never happens for two labels. *)
Definition py_is (a b : pyobj) : bool :=
  match a, b with
  | PyNone, PyNone => true
  | PyBool x, PyBool y => Bool.eqb x y
  | PyObject c x, PyObject d y => (c =? d) && Nat.eqb x y
  | PyCustom c x _, PyCustom d y _ => (c =? d) && Nat.eqb x y
  | _, _ => false
  end.

(** The outcome of evaluating [a == b]: what the first method that does not
    decline answers, or the exception it raises. *)
Definition py_eq (a b : pyobj) : result bool :=
  (r <- dunder_eq a b ;;
   match r with
   | Truth t => Ok t
   | NotImplemented =>
       r' <- dunder_eq b a ;;
       match r' with
       | Truth t => Ok t
       | NotImplemented => Ok (py_is a b)
       end
   end)%result.

Definition py_ne (a b : pyobj) : result bool :=
  (r <- py_eq a b ;; Ok (negb r))%result.

(** What the other operand's [__eq__] makes of a comparison that
    [Label.__eq__] declined. *)
Definition decided_by (other : result richcmp) : result bool :=
  match other with
  | Ok (Truth t) => Ok t
  | Ok NotImplemented => Ok false
  | Raise e => Raise e
  end.

(** [unittest.mock.ANY], whose [__eq__] answers True to everything, and an
    object whose [__eq__] raises. *)
Definition mock_ANY : pyobj :=
  PyCustom "unittest.mock._ANY" 0 (fun _ => Ok (Truth true)).

Definition raising_eq : pyobj :=
  PyCustom "RaisingEq" 1 (fun _ => Raise (TypeError "cannot compare")).

(** The claim of the specification on labels and other values, in its own
    words: comparing is a defined "not equal", never a failure. *)
Definition never_equal_to_non_label : Prop :=
  forall (l : Label) (v : pyobj),
    isinstance_Label v = false -> py_eq (PyLabel l) v = Ok false.

(** ** Fixed-key label kinds

    Each kind is declared as
      @dataclass(unsafe_hash=True)
      class ActionLabel(Label):
          key = field(default="Action", init=False)
    that is, a subclass whose body binds [key] to a dataclass [Field] and
    carries no annotation of its own. *)

Inductive class_attr : Type :=
| AttrField (default : option string) (init : bool)
| AttrMethod
| AttrConst (v : string).

Record class_body : Type := mkClass {
  cls_name : string;
  cls_annotations : list string;
  cls_namespace : list (string * class_attr)
}.

Definition is_Field (a : class_attr) : bool :=
  match a with
  | AttrField _ _ => true
  | _ => false
  end.

Definition annotated (c : class_body) (name : string) : bool :=
  existsb (String.eqb name) (cls_annotations c).

(** The check the [dataclass] decorator makes on the class's own namespace:
    a member that is a [Field] and has no annotation in this class is
    refused. *)
Definition unannotated_fields (c : class_body) : list string :=
  map fst
    (filter (fun na => is_Field (snd na) && negb (annotated c (fst na)))
            (cls_namespace c)).

Definition quote_name (n : string) : string :=
  String "039" (n ++ String "039" "").

Definition dataclass (c : class_body) : result class_body :=
  match unannotated_fields c with
  | [] => Ok c
  | n :: _ => Raise (TypeError (quote_name n ++ " is a field but has no type annotation"))
  end.

Definition Label_class : class_body :=
  mkClass "Label" ["key"; "value"]
    [("to_dynamodb_dict", AttrMethod); ("from_dynamodb_dict", AttrMethod);
     ("__eq__", AttrMethod)].

Inductive label_kind : Type :=
| KClassification
| KBankSourceClassification
| KBankIDClassification
| KBankedContentIDClassification
| KAction
| KThreatExchangeReaction.

Definition kind_class_name (k : label_kind) : string :=
  match k with
  | KClassification => "ClassificationLabel"
  | KBankSourceClassification => "BankSourceClassificationLabel"
  | KBankIDClassification => "BankIDClassificationLabel"
  | KBankedContentIDClassification => "BankedContentIDClassificationLabel"
  | KAction => "ActionLabel"
  | KThreatExchangeReaction => "ThreatExchangeReactionLabel"
  end.

(** The [default=] of each kind's [key] field. *)
Definition kind_key (k : label_kind) : string :=
  match k with
  | KClassification => "Classification"
  | KBankSourceClassification => "BankSourceClassification"
  | KBankIDClassification => "BankIDClassification"
  | KBankedContentIDClassification => "BankedContentIDClassification"
  | KAction => "Action"
  | KThreatExchangeReaction => "ThreatExchangeReaction"
  end.

Definition kind_class (k : label_kind) : class_body :=
  mkClass (kind_class_name k) []
    [("key", AttrField (Some (kind_key k)) false)].

(** What the declaration is written to build: [key] takes its default and is
    left out of [__init__], whose only argument is [value]. *)
Definition fixed_key_label (k : label_kind) (v : string) : Label :=
  mkLabel (kind_key k) v.

(** Evaluating [Kind(v)] for the classes as they are declared: the class
    statement is decorated first, the instance is built from the result. *)
Definition construct (k : label_kind) (v : string) : result Label :=
  (_ <- dataclass (kind_class k) ;; Ok (fixed_key_label k v))%result.

(** The names of the six kinds stand for the labels their declarations are
    written to build.  They give the catalog placeholders of the evaluator
    ([get_action_rules], [get_actions], [get_threat_exchange_reaction_labels])
    the label each of them names, so that the code around them can be
    followed; where a label is built from data ([from_aws_message]), the
    class is taken as it is declared ([construct_from]). *)
Definition ClassificationLabel := fixed_key_label KClassification.
Definition BankSourceClassificationLabel := fixed_key_label KBankSourceClassification.
Definition BankIDClassificationLabel := fixed_key_label KBankIDClassification.
Definition BankedContentIDClassificationLabel := fixed_key_label KBankedContentIDClassification.
Definition ActionLabel := fixed_key_label KAction.
Definition ThreatExchangeReactionLabel := fixed_key_label KThreatExchangeReaction.

(** [Label.to_dynamodb_dict] and [Label.from_dynamodb_dict]. *)
Definition to_dynamodb_dict (self : Label) : list (string * string) :=
  [("K", key self); ("V", value self)].

Fixpoint assoc_get {A} (k : string) (d : list (string * A)) : option A :=
  match d with
  | [] => None
  | (k', v) :: d' => if k =? k' then Some v else assoc_get k d'
  end.

Definition from_dynamodb_dict (d : list (string * string)) : result Label :=
  match assoc_get "K" d with
  | None => Raise (KeyError "K")
  | Some k =>
      match assoc_get "V" d with
      | None => Raise (KeyError "V")
      | Some v => Ok (mkLabel k v)
      end
  end.

(** [str(n)] for an [int], as an f-string formats it. *)
Definition str_of_int (z : Z) : string := NilZero.string_of_int (Z.to_int z).

(** ** JSON text (the [json] module, default encoder and decoder)

    The values [json.loads] returns: None, booleans, integers, floats,
    strings, lists and dicts.  An object is the list of its items in
    insertion order.  A float is kept as the literal that denotes it; the
    properties below are about values without floats ([json_wf]). *)

Inductive json : Type :=
| JNull
| JBool (b : bool)
| JInt (z : Z)
| JFloat (literal : string)
| JStr (s : string)
| JList (l : list json)
| JDict (items : list (string * json)).

Definition dquote : ascii := "034"%char.
Definition backslash : ascii := "092"%char.

Definition hex_digit (n : N) : ascii :=
  if (n <? 10)%N then ascii_of_N (48 + n) else ascii_of_N (87 + n).

(** [ensure_ascii] escaping of one character: the short escapes of
    [ESCAPE_DCT], the printable ASCII characters as they are, and
    [\u00xx] (lower-case hexadecimal) for everything else. *)
Definition escape_char (c : ascii) : string :=
  let n := N_of_ascii c in
  if (n =? 34)%N then String backslash (String dquote "")
  else if (n =? 92)%N then String backslash (String backslash "")
  else if (n =? 10)%N then String backslash "n"
  else if (n =? 13)%N then String backslash "r"
  else if (n =? 9)%N then String backslash "t"
  else if (n =? 8)%N then String backslash "b"
  else if (n =? 12)%N then String backslash "f"
  else if ((32 <=? n) && (n <=? 126))%N then String c ""
  else String backslash
         (String "u" (String "0" (String "0"
            (String (hex_digit (n / 16)) (String (hex_digit (n mod 16)) ""))))).

Fixpoint escape (s : string) : string :=
  match s with
  | EmptyString => ""
  | String c s' => escape_char c ++ escape s'
  end.

Definition encode_str (s : string) : string :=
  String dquote (escape s ++ String dquote "").

(** [json.dumps]: items separated by comma and space, key and value by
    colon and space. *)
Fixpoint json_dumps (v : json) : string :=
  match v with
  | JNull => "null"
  | JBool true => "true"
  | JBool false => "false"
  | JInt z => str_of_int z
  | JFloat literal => literal
  | JStr s => encode_str s
  | JList [] => "[]"
  | JList (x :: xs) =>
      "[" ++ json_dumps x ++
      (fix rest (l : list json) : string :=
         match l with
         | [] => "]"
         | y :: l' => ", " ++ json_dumps y ++ rest l'
         end) xs
  | JDict [] => "{}"
  | JDict ((k, x) :: kvs) =>
      "{" ++ encode_str k ++ ": " ++ json_dumps x ++
      (fix rest (l : list (string * json)) : string :=
         match l with
         | [] => "}"
         | (k', y) :: l' => ", " ++ encode_str k' ++ ": " ++ json_dumps y ++ rest l'
         end) kvs
  end.

Definition hex_value (c : ascii) : option N :=
  let n := N_of_ascii c in
  if ((48 <=? n) && (n <=? 57))%N then Some (n - 48)%N
  else if ((97 <=? n) && (n <=? 102))%N then Some (n - 87)%N
  else if ((65 <=? n) && (n <=? 70))%N then Some (n - 55)%N
  else None.

Definition hex4 (a b c d : ascii) : option N :=
  match hex_value a, hex_value b, hex_value c, hex_value d with
  | Some x, Some y, Some z, Some w => Some (((x * 16 + y) * 16 + z) * 16 + w)%N
  | _, _, _, _ => None
  end.

(** The one-character escapes of the decoder's [BACKSLASH] table. *)
Definition unescape (e : ascii) : option ascii :=
  let n := N_of_ascii e in
  if (n =? 34)%N then Some dquote
  else if (n =? 92)%N then Some backslash
  else if (n =? 47)%N then Some "/"%char
  else if (n =? 98)%N then Some "008"%char
  else if (n =? 102)%N then Some "012"%char
  else if (n =? 110)%N then Some "010"%char
  else if (n =? 114)%N then Some "013"%char
  else if (n =? 116)%N then Some "009"%char
  else None.

Definition prepend (c : ascii) (r : option (string * string)) : option (string * string) :=
  match r with
  | Some (s, rest) => Some (String c s, rest)
  | None => None
  end.

(** [scanstring], called just after the opening quote, in strict mode: it
    returns the decoded string and the text after the closing quote.  An
    escape that denotes a code point outside the model is refused. *)
Fixpoint scanstring (s : string) : option (string * string) :=
  match s with
  | EmptyString => None
  | String c r =>
      if (c =? dquote)%char then Some ("", r)
      else if (c =? backslash)%char then
        match r with
        | EmptyString => None
        | String e r1 =>
            if (e =? "u")%char then
              match r1 with
              | String h1 (String h2 (String h3 (String h4 r2))) =>
                  match hex4 h1 h2 h3 h4 with
                  | Some n =>
                      if (n <? 256)%N then prepend (ascii_of_N n) (scanstring r2)
                      else None
                  | None => None
                  end
              | _ => None
              end
            else
              match unescape e with
              | Some ch => prepend ch (scanstring r1)
              | None => None
              end
        end
      else if (N_of_ascii c <? 32)%N then None
      else prepend c (scanstring r)
  end.

Definition is_ws (c : ascii) : bool :=
  let n := N_of_ascii c in
  ((n =? 32) || (n =? 9) || (n =? 10) || (n =? 13))%N.

Fixpoint skip_ws (s : string) : string :=
  match s with
  | EmptyString => ""
  | String c r => if is_ws c then skip_ws r else s
  end.

(** Storing an item in a dict: an existing key keeps its place and takes the
    new value, a new key goes last. *)
Fixpoint dict_set (d : list (string * json)) (k : string) (v : json) : list (string * json) :=
  match d with
  | [] => [(k, v)]
  | (k', v') :: d' => if k =? k' then (k, v) :: d' else (k', v') :: dict_set d' k v
  end.

Definition dict_of_pairs (pairs : list (string * json)) : list (string * json) :=
  fold_left (fun d kv => dict_set d (fst kv) (snd kv)) pairs [].

Definition is_digit (c : ascii) : bool :=
  let n := N_of_ascii c in ((48 <=? n) && (n <=? 57))%N.

(** The longest prefix of digits, and the text after it. *)
Fixpoint take_digits (s : string) : string * string :=
  match s with
  | EmptyString => ("", "")
  | String c r =>
      if is_digit c then
        let (d, r') := take_digits r in (String c d, r')
      else ("", s)
  end.

(** The three groups of [NUMBER_RE]: an optional minus sign and an integer
    without leading zero; an optional fraction, a point and digits; an
    optional exponent, e or E, an optional sign and digits. *)
Definition unsigned_part (s : string) : option (string * string) :=
  match s with
  | EmptyString => None
  | String c r =>
      if (c =? "0")%char then Some ("0", r)
      else if is_digit c then
        let (d, r') := take_digits r in Some (String c d, r')
      else None
  end.

Definition integer_part (s : string) : option (string * string) :=
  match s with
  | String "-" r =>
      match unsigned_part r with
      | Some (d, r') => Some (String "-" d, r')
      | None => None
      end
  | _ => unsigned_part s
  end.

Definition fraction_part (s : string) : string * string :=
  match s with
  | String "." r =>
      match take_digits r with
      | (EmptyString, _) => ("", s)
      | (d, r') => (String "." d, r')
      end
  | _ => ("", s)
  end.

Definition exponent_part (s : string) : string * string :=
  match s with
  | EmptyString => ("", s)
  | String e r =>
      if ((e =? "e") || (e =? "E"))%char then
        match r with
        | EmptyString => ("", s)
        | String sign r1 =>
            if ((sign =? "-") || (sign =? "+"))%char then
              match take_digits r1 with
              | (EmptyString, _) => ("", s)
              | (d, r') => (String e (String sign d), r')
              end
            else
              match take_digits r with
              | (EmptyString, _) => ("", s)
              | (d, r') => (String e d, r')
              end
        end
      else ("", s)
  end.

(** [int(literal)] on the integer group. *)
Definition int_of_literal (literal : string) : Z :=
  match NilZero.int_of_string literal with
  | Some d => Z.of_int d
  | None => 0%Z
  end.

(** [match_number]: an integer when the literal has neither fraction nor
    exponent, a float otherwise. *)
Definition match_number (s : string) : option (json * string) :=
  match integer_part s with
  | Some (i, r) =>
      let (f, r1) := fraction_part r in
      let (e, r2) := exponent_part r1 in
      match f, e with
      | EmptyString, EmptyString => Some (JInt (int_of_literal i), r)
      | _, _ => Some (JFloat (i ++ f ++ e), r2)
      end
  | None => None
  end.

Fixpoint strip_prefix (p s : string) : option string :=
  match p with
  | EmptyString => Some s
  | String c p' =>
      match s with
      | EmptyString => None
      | String d s' => if (c =? d)%char then strip_prefix p' s' else None
      end
  end.

(** The values that are neither string, array nor object, in the order the
    scanner tries them. *)
Definition scan_atom (s : string) : option (json * string) :=
  match strip_prefix "null" s with
  | Some r => Some (JNull, r)
  | None =>
  match strip_prefix "true" s with
  | Some r => Some (JBool true, r)
  | None =>
  match strip_prefix "false" s with
  | Some r => Some (JBool false, r)
  | None =>
  match match_number s with
  | Some number => Some number
  | None =>
  match strip_prefix "NaN" s with
  | Some r => Some (JFloat "NaN", r)
  | None =>
  match strip_prefix "Infinity" s with
  | Some r => Some (JFloat "Infinity", r)
  | None =>
  match strip_prefix "-Infinity" s with
  | Some r => Some (JFloat "-Infinity", r)
  | None => None
  end end end end end end end.

(** The decoder.  [scan_once] reads one value at the head of the text;
    [parse_array] reads the elements of an array after its bracket, up to
    and including the closing one; [parse_object] reads the items of an
    object, called just after the opening quote of a key.  [fuel] bounds the
    nesting and the number of elements; [json_loads] gives the length of the
    text, which is always enough. *)
Fixpoint scan_once (fuel : nat) (s : string) : option (json * string) :=
  match fuel with
  | O => None
  | S fuel' =>
      match s with
      | EmptyString => None
      | String c r =>
          if (c =? dquote)%char then
            match scanstring r with
            | Some (str, r') => Some (JStr str, r')
            | None => None
            end
          else if (c =? "[")%char then
            match skip_ws r with
            | String "]" r' => Some (JList [], r')
            | r' =>
                match parse_array fuel' r' with
                | Some (vs, r2) => Some (JList vs, r2)
                | None => None
                end
            end
          else if (c =? "{")%char then
            match skip_ws r with
            | String "}" r' => Some (JDict [], r')
            | String q r' =>
                if (q =? dquote)%char then
                  match parse_object fuel' r' with
                  | Some (kvs, r2) => Some (JDict (dict_of_pairs kvs), r2)
                  | None => None
                  end
                else None
            | EmptyString => None
            end
          else scan_atom s
      end
  end
with parse_array (fuel : nat) (s : string) : option (list json * string) :=
  match fuel with
  | O => None
  | S fuel' =>
      match scan_once fuel' s with
      | Some (v, r) =>
          match skip_ws r with
          | String "]" r' => Some ([v], r')
          | String "," r' =>
              match parse_array fuel' (skip_ws r') with
              | Some (vs, r2) => Some (v :: vs, r2)
              | None => None
              end
          | _ => None
          end
      | None => None
      end
  end
with parse_object (fuel : nat) (s : string) : option (list (string * json) * string) :=
  match fuel with
  | O => None
  | S fuel' =>
      match scanstring s with
      | Some (k, r) =>
          match skip_ws r with
          | String ":" r1 =>
              match scan_once fuel' (skip_ws r1) with
              | Some (v, r2) =>
                  match skip_ws r2 with
                  | String "}" r3 => Some ([(k, v)], r3)
                  | String "," r3 =>
                      match skip_ws r3 with
                      | String q r4 =>
                          if (q =? dquote)%char then
                            match parse_object fuel' r4 with
                            | Some (kvs, r5) => Some ((k, v) :: kvs, r5)
                            | None => None
                            end
                          else None
                      | EmptyString => None
                      end
                  | _ => None
                  end
              | None => None
              end
          | _ => None
          end
      | None => None
      end
  end.

(** [json.loads]: leading whitespace, one value, trailing whitespace,
    nothing else. *)
Definition json_loads (text : string) : result json :=
  match scan_once (S (String.length text)) (skip_ws text) with
  | Some (v, r) =>
      match skip_ws r with
      | EmptyString => Ok v
      | _ => Raise JSONDecodeError
      end
  | None => Raise JSONDecodeError
  end.

(** [parsed[k]] on the decoded value. *)
Definition getitem (parsed : json) (k : string) : result json :=
  match parsed with
  | JDict items =>
      match assoc_get k items with
      | Some v => Ok v
      | None => Raise (KeyError k)
      end
  | _ => Raise (TypeError "indices must be integers")
  end.

(** [for d in v]: the elements of a list, the characters of a string, the
    keys of a dict; nothing else can be iterated. *)
Definition iterate (v : json) : result (list json) :=
  match v with
  | JList l => Ok l
  | JStr s => Ok (map (fun c => JStr (String c "")) (list_ascii_of_string s))
  | JDict items => Ok (map (fun kv => JStr (fst kv)) items)
  | _ => Raise (TypeError "object is not iterable")
  end.

(** The fields of the records below are typed: [as_str] and [as_list] turn a
    decoded value into a field. *)
Definition as_str (v : json) : result string :=
  match v with
  | JStr s => Ok s
  | _ => Raise (TypeError "str expected")
  end.

Definition as_list (v : json) : result (list json) :=
  match v with
  | JList l => Ok l
  | _ => Raise (TypeError "list expected")
  end.

(** [Kind(v)] on a decoded value, for the classes as they are declared: the
    class statement comes first, as in [construct]. *)
Definition construct_from (k : label_kind) (v : json) : result Label :=
  (_ <- dataclass (kind_class k) ;;
   value <- as_str v ;;
   Ok (fixed_key_label k value))%result.

(** ** Match messages (hmalib/models.py) *)

Module BankedSignal.
(** Modelled from the spec: hmalib/models.py is not among the sources.  A
    banked signal identifies the signal id, the bank name and the bank's
    source; actioner_models.py builds one from three strings. *)
Record t : Type := make {
  signal_id : string;
  bank_name : string;
  bank_source : string
}.
End BankedSignal.

Module MatchMessage.
(** The fields are those actioner_models.py reads; the class itself is in
    hmalib/models.py. *)
Record t : Type := make {
  content_key : string;
  content_hash : string;
  matching_banked_signals : list BankedSignal.t
}.

(** Modelled from the spec: the JSON-encoded MatchMessage of the inbound
    event, an object with the fields ContentKey, ContentHash and
    MatchingBankedSignals. *)
Definition to_sns_message_spec (to_dict : BankedSignal.t -> json) (self : t) : json :=
  JDict [("ContentKey", JStr (content_key self));
         ("ContentHash", JStr (content_hash self));
         ("MatchingBankedSignals", JList (map to_dict (matching_banked_signals self)))].
End MatchMessage.

(** ** Action and reaction messages (actioner_models.py) *)

Module ActionMessage.
Record t : Type := make {
  content_key : string;
  content_hash : string;
  matching_banked_signals : list BankedSignal.t;
  action_label : Label
}.

Section Wire.
(** [BankedSignal.to_dict] and [BankedSignal.from_dict]. *)
Variable to_dict : BankedSignal.t -> json.
Variable from_dict : json -> result BankedSignal.t.

Definition to_aws_message (self : t) : string :=
  json_dumps
    (JDict [("ContentKey", JStr (content_key self));
            ("ContentHash", JStr (content_hash self));
            ("MatchingBankedSignals",
             JList (map to_dict (matching_banked_signals self)));
            ("ActionLabelValue", JStr (value (action_label self)))]).

(** The arguments of [cls(...)] are evaluated in order: three lookups, the
    list comprehension, then [ActionLabel(parsed["ActionLabelValue"])], which
    is built as the module declares it ([construct_from]).  The last three
    lines give the record its typed fields. *)
Definition from_aws_message (message : string) : result t :=
  (parsed <- json_loads message ;;
   ck <- getitem parsed "ContentKey" ;;
   ch <- getitem parsed "ContentHash" ;;
   sigs <- (v <- getitem parsed "MatchingBankedSignals" ;;
            l <- iterate v ;; rmap from_dict l) ;;
   lv <- getitem parsed "ActionLabelValue" ;;
   label <- construct_from KAction lv ;;
   content_key <- as_str ck ;;
   content_hash <- as_str ch ;;
   Ok (make content_key content_hash sigs label))%result.
End Wire.

Definition from_match_message_and_label
    (match_message : MatchMessage.t) (action_label : Label) : t :=
  make (MatchMessage.content_key match_message)
       (MatchMessage.content_hash match_message)
       (MatchMessage.matching_banked_signals match_message)
       action_label.

End ActionMessage.

Module ReactionMessage.
Record t : Type := make {
  content_key : string;
  content_hash : string;
  matching_banked_signals : list BankedSignal.t;
  reaction_label : Label
}.

Section Wire.
Variable to_dict : BankedSignal.t -> json.
Variable from_dict : json -> result BankedSignal.t.

Definition to_aws_message (self : t) : string :=
  json_dumps
    (JDict [("ContentKey", JStr (content_key self));
            ("ContentHash", JStr (content_hash self));
            ("MatchingBankedSignals",
             JList (map to_dict (matching_banked_signals self)));
            ("ReactionLabelValue", JStr (value (reaction_label self)))]).

(** As for [ActionMessage], with [ThreatExchangeReactionLabel]. *)
Definition from_aws_message (message : string) : result t :=
  (parsed <- json_loads message ;;
   ck <- getitem parsed "ContentKey" ;;
   ch <- getitem parsed "ContentHash" ;;
   sigs <- (v <- getitem parsed "MatchingBankedSignals" ;;
            l <- iterate v ;; rmap from_dict l) ;;
   lv <- getitem parsed "ReactionLabelValue" ;;
   label <- construct_from KThreatExchangeReaction lv ;;
   content_key <- as_str ck ;;
   content_hash <- as_str ch ;;
   Ok (make content_key content_hash sigs label))%result.
End Wire.

Definition from_match_message_and_label
    (match_message : MatchMessage.t) (threat_exchange_reaction_label : Label) : t :=
  make (MatchMessage.content_key match_message)
       (MatchMessage.content_hash match_message)
       (MatchMessage.matching_banked_signals match_message)
       threat_exchange_reaction_label.

End ReactionMessage.

(** The items of a dict are distinct by key, at every level. *)
Fixpoint distinct (l : list string) : bool :=
  match l with
  | [] => true
  | k :: l' => negb (existsb (String.eqb k) l') && distinct l'
  end.

Fixpoint json_wf (v : json) : bool :=
  match v with
  | JNull | JBool _ | JInt _ | JStr _ => true
  | JFloat _ => false
  | JList l => forallb json_wf l
  | JDict items =>
      distinct (map fst items) &&
      (fix all (l : list (string * json)) : bool :=
         match l with
         | [] => true
         | (_, x) :: l' => json_wf x && all l'
         end) items
  end.

(** ** Actions and action rules (actioner_models.py) *)

Module Action.
Record t : Type := make {
  action_label : Label;
  priority : Z;
  superseded_by : list Label
}.
End Action.

Module ActionRule.
(** The three fields the class declares, in the order [get_action_rules]
    gives them.  What [config.HMAConfig] (hmalib/common/config.py, not among
    the sources) adds to the class is not modelled. *)
Record t : Type := make {
  action_label : Label;
  must_have_labels : list Label;
  must_not_have_labels : list Label
}.
End ActionRule.

(** ** The action evaluator (lambdas/actions/action_evaluator.py) *)

(** [get_action_rules]: the one rule written in the source. *)
Definition get_action_rules : list ActionRule.t :=
  [ActionRule.make (ActionLabel "EnqueueForReview")
                   [mkLabel "Collaboration" "12345"]
                   []].

(** [action_rule_applies_to_match_message]: [return True]. *)
Definition action_rule_applies_to_match_message
    (action_rule : ActionRule.t) (match_message : MatchMessage.t) : bool :=
  true.

(** [get_actions]: the one action written in the source. *)
Definition get_actions : list Action.t :=
  [Action.make (ActionLabel "ENQUEUE_FOR_REVIEW") 1
               [ActionLabel "A_MORE_IMPORTANT_ACTION"]].

(** [remove_superseded_actions]: [return action_labels]. *)
Definition remove_superseded_actions (action_labels : list Label) : list Label :=
  action_labels.

(** [list.__contains__], by [==] on labels. *)
Definition contains (l : list Label) (x : Label) : bool :=
  existsb (fun y => Label_eqb y x) l.

(** The loop of [get_action_labels] over the rules, appending to the list
    built so far. *)
Fixpoint collect_action_labels (action_rules : list ActionRule.t)
    (match_message : MatchMessage.t) (action_labels : list Label) : list Label :=
  match action_rules with
  | [] => action_labels
  | action_rule :: rest =>
      if action_rule_applies_to_match_message action_rule match_message
         && negb (contains action_labels (ActionRule.action_label action_rule))
      then collect_action_labels rest match_message
             (action_labels ++ [ActionRule.action_label action_rule])
      else collect_action_labels rest match_message action_labels
  end.

Definition get_action_labels (match_message : MatchMessage.t) : list Label :=
  let action_rules := get_action_rules in
  let action_labels := collect_action_labels action_rules match_message [] in
  remove_superseded_actions action_labels.

(** [threat_exchange_reacting_is_enabled]: [return True]. *)
Definition threat_exchange_reacting_is_enabled (match_message : MatchMessage.t) : bool :=
  true.

(** [get_threat_exchange_reaction_labels]. *)
Definition get_threat_exchange_reaction_labels
    (match_message : MatchMessage.t) (action_labels : list Label) : list Label :=
  [ThreatExchangeReactionLabel "SAW_THIS_TOO"].

(** *** Effects of the handler

    What the handler does to the outside is recorded in order: log lines,
    messages sent to the queue, and the two calls that decide on reactions,
    each with its arguments and its answer. *)

Inductive log_arg : Type :=
| ArgMatchMessage (m : MatchMessage.t)
| ArgLabel (l : Label).

Inductive effect : Type :=
| LogInfo (fmt : string) (arg : option log_arg)
| SendMessage (QueueUrl MessageBody : string)
| ReactingIsEnabledCalled (m : MatchMessage.t) (answer : bool)
| GetReactionLabelsCalled (m : MatchMessage.t) (action_labels answer : list Label).

Definition M (A : Type) : Type := (list effect * result A)%type.

Definition ret {A} (a : A) : M A := ([], Ok a).
Definition raise {A} (e : exn) : M A := ([], Raise e).
Definition tell (e : effect) : M unit := ([e], Ok tt).
Definition lift {A} (r : result A) : M A := ([], r).

Definition bind {A B} (m : M A) (k : A -> M B) : M B :=
  match m with
  | (t, Ok a) => let (t', r) := k a in ((t ++ t')%list, r)
  | (t, Raise e) => (t, Raise e)
  end.

Declare Scope handler_scope.
Delimit Scope handler_scope with handler.
Notation "x <- m ;; k" := (bind m (fun x => k))
  (at level 61, m at next level, right associativity) : handler_scope.
Notation "m ;; k" := (bind m (fun _ => k))
  (at level 61, right associativity) : handler_scope.

Fixpoint for_each {A} (l : list A) (body : A -> M unit) : M unit :=
  match l with
  | [] => ret tt
  | x :: l' => (body x ;; for_each l' body)%handler
  end.

Definition trace {A} (m : M A) : list effect := fst m.
Definition outcome {A} (m : M A) : result A := snd m.

(** [react_to_threat_exchange]: one line is logged with [logger.info]; the
    next call is written [logger.ingo], a name the logger does not have. *)
Definition react_to_threat_exchange
    (match_message : MatchMessage.t) (threat_exchange_reaction_label : Label) : M unit :=
  (tell (LogInfo "The contents of a ThreatExchangeReactionMessage will contain the following:" None) ;;
   (raise (AttributeError "ingo") : M unit) ;;
   tell (LogInfo "threat_exchange_reaction_label = %s"
                 (Some (ArgLabel threat_exchange_reaction_label))))%handler.

Record sqs_record : Type := { body : string }.

Section Handler.
(** [os.environ["ACTIONS_QUEUE_URL"]]. *)
Variable ACTIONS_QUEUE_URL : string.
(** [MatchMessage.from_sns_message] and [MatchMessage.to_sns_message], of
    hmalib/models.py. *)
Variable from_sns_message : json -> result MatchMessage.t.
Variable to_sns_message : MatchMessage.t -> json.
(** The configuration lookup the handler asks before reacting; the source
    binds it to [threat_exchange_reacting_is_enabled]. *)
Variable reacting_is_enabled : MatchMessage.t -> bool.

(** The head of the loop body: from the queue record to the match message. *)
Definition decode_record (r : sqs_record) : M MatchMessage.t :=
  lift (sns_notification <- json_loads (body r) ;;
        message <- getitem sns_notification "Message" ;;
        from_sns_message message)%result.

(** The rest of the loop body. *)
Definition evaluate_match_message (match_message : MatchMessage.t) : M unit :=
  (tell (LogInfo "Evaluating match_message: %s" (Some (ArgMatchMessage match_message))) ;;
   let action_labels := get_action_labels match_message in
   for_each action_labels
     (fun action_label =>
        tell (SendMessage ACTIONS_QUEUE_URL
                          (json_dumps (to_sns_message match_message)))) ;;
   let enabled := reacting_is_enabled match_message in
   tell (ReactingIsEnabledCalled match_message enabled) ;;
   if enabled then
     let threat_exchange_reaction_labels :=
       get_threat_exchange_reaction_labels match_message action_labels in
     tell (GetReactionLabelsCalled match_message action_labels
                                   threat_exchange_reaction_labels) ;;
     match threat_exchange_reaction_labels with
     | [] => ret tt
     | _ =>
         for_each threat_exchange_reaction_labels
           (fun threat_exchange_reaction_label =>
              react_to_threat_exchange match_message threat_exchange_reaction_label)
     end
   else ret tt)%handler.

Definition lambda_handler_with (event : list sqs_record) : M (list (string * string)) :=
  (for_each event
     (fun sqs_record =>
        match_message <- decode_record sqs_record ;;
        evaluate_match_message match_message) ;;
   ret [("action_evaluated", "true")])%handler.
End Handler.

(** [lambda_handler], as the source binds the lookup. *)
Definition lambda_handler (ACTIONS_QUEUE_URL : string)
    (from_sns_message : json -> result MatchMessage.t)
    (to_sns_message : MatchMessage.t -> json)
    (event : list sqs_record) : M (list (string * string)) :=
  lambda_handler_with ACTIONS_QUEUE_URL from_sns_message to_sns_message
    threat_exchange_reacting_is_enabled event.

(** The messages sent to the queue, in order. *)
Fixpoint sent_bodies (t : list effect) : list string :=
  match t with
  | [] => []
  | SendMessage _ b :: t' => b :: sent_bodies t'
  | _ :: t' => sent_bodies t'
  end.

(** *** What the specification asks of the evaluator

    The two definitions below follow the words of the specification, to be
    compared with the functions above. *)

(** A rule applies iff every must-have label is among the derived labels and
    no must-not-have label is. *)
Definition rule_applies_spec (derived_labels : list Label) (rule : ActionRule.t) : bool :=
  forallb (contains derived_labels) (ActionRule.must_have_labels rule)
  && negb (existsb (contains derived_labels) (ActionRule.must_not_have_labels rule)).

(** [superseded_by_of actions x]: the superseded_by list of the catalog
    action for label [x]. *)
Definition superseded_by_of (actions : list Action.t) (x : Label) : list Label :=
  flat_map (fun a => if Label_eqb (Action.action_label a) x
                     then Action.superseded_by a else [])
           actions.

(** X is removed iff some other label Y of the list is in X's superseded_by. *)
Definition superseded_spec (actions : list Action.t) (labels : list Label) (x : Label) : bool :=
  existsb (fun y => negb (Label_eqb y x) && contains (superseded_by_of actions x) y) labels.

Definition remove_superseded_spec (actions : list Action.t) (labels : list Label) : list Label :=
  filter (fun x => negb (superseded_spec actions labels x)) labels.

(** ** Webhook action performers (actioner_models.py) *)

Inductive http_verb : Type := POST | GET | PUT | DELETE.

Record http_request : Type := mkRequest {
  req_verb : http_verb;
  req_url : string;
  req_data : option string
}.

(** What [requests] hands back for a completed exchange, whatever the
    status. *)
Record Response : Type := mkResponse { status_code : Z }.

Definition is_2xx (r : Response) : bool :=
  ((200 <=? status_code r) && (status_code r <? 300))%Z.

(** The four subtypes of [WebhookActionPerformer], each with the name of its
    configuration and its url. *)
Record WebhookActionPerformer : Type := mkPerformer {
  performer_verb : http_verb;
  performer_name : string;
  url : string
}.

(** The name of the parameter of each subtype's [call]:
      def call(self, data: str)    for POST and PUT,
      def call(self, _data: str)   for GET and DELETE. *)
Definition call_parameter (v : http_verb) : string :=
  match v with
  | POST | PUT => "data"
  | GET | DELETE => "_data"
  end.

(** The request each subtype's [call] makes. *)
Definition call_request (self : WebhookActionPerformer) (data : string) : http_request :=
  match performer_verb self with
  | POST => mkRequest POST (url self) (Some data)
  | GET => mkRequest GET (url self) None
  | PUT => mkRequest PUT (url self) (Some data)
  | DELETE => mkRequest DELETE (url self) None
  end.

(** The run of a performer: the requests made and what the caller gets, a
    Python value or an exception. *)
Definition performed : Type := (list http_request * result pyobj)%type.

Section Performer.
(** [MatchMessage.to_aws_message], of hmalib/models.py. *)
Variable to_aws_message : MatchMessage.t -> string.
(** The remote end: the response to each request. *)
Variable http : http_request -> Response.

(** [self.call(data=...)]: the argument is passed by keyword, so it is
    bound to the parameter of that name. *)
Definition call_by_keyword (self : WebhookActionPerformer) (keyword data : string)
  : list http_request * result Response :=
  if keyword =? call_parameter (performer_verb self)
  then ([call_request self data], Ok (http (call_request self data)))
  else ([], Raise (TypeError "call() got an unexpected keyword argument 'data'")).

(** [perform_action]: the response of [call] is not bound; the method ends
    without a [return]. *)
Definition perform_action (self : WebhookActionPerformer)
    (match_message : MatchMessage.t) : performed :=
  match call_by_keyword self "data" (to_aws_message match_message) with
  | (reqs, Ok _) => (reqs, Ok PyNone)
  | (reqs, Raise e) => (reqs, Raise e)
  end.
End Performer.

(** ** DynamoDB records (hmalib/dto.py) *)

(** The values of an item: strings and numbers. *)
Inductive item_value : Type :=
| ItemStr (s : string)
| ItemInt (z : Z).

Definition item : Type := list (string * item_value).

Module PDQRecordBase.
Definition SIGNAL_TYPE : string := "pdq".
Definition get_dynamodb_content_key (key : string) : string := "c#" ++ key.
Definition get_dynamodb_type_key (key : string) : string := "type#" ++ key.
End PDQRecordBase.

Section Records.
(** [datetime.datetime] and its [isoformat]. *)
Variable datetime : Type.
Variable isoformat : datetime -> string.

Record PipelinePDQHashRecord : Type := mkHashRecord {
  hash_content_key : string;
  hash_content_hash : string;
  hash_timestamp : datetime;
  quality : Z
}.

Definition PipelinePDQHashRecord_to_dynamodb_item (self : PipelinePDQHashRecord) : item :=
  [("PK", ItemStr (PDQRecordBase.get_dynamodb_content_key (hash_content_key self)));
   ("SK", ItemStr (PDQRecordBase.get_dynamodb_type_key PDQRecordBase.SIGNAL_TYPE));
   ("ContentHash", ItemStr (hash_content_hash self));
   ("Quality", ItemInt (quality self));
   ("Timestamp", ItemStr (isoformat (hash_timestamp self)));
   ("HashType", ItemStr PDQRecordBase.SIGNAL_TYPE)].

Definition PipelinePDQHashRecord_to_sqs_message (self : PipelinePDQHashRecord)
  : list (string * string) :=
  [("hash", hash_content_hash self);
   ("type", PDQRecordBase.SIGNAL_TYPE);
   ("key", hash_content_key self)].

Record PDQMatchRecord : Type := mkMatchRecord {
  match_content_key : string;
  match_content_hash : string;
  match_timestamp : datetime;
  te_id : Z;
  te_hash : string
}.

(** [get_dynamodb_te_key], applied to the integer [te_id]. *)
Definition get_dynamodb_te_key (key : Z) : string := "te#" ++ str_of_int key.

Definition PDQMatchRecord_to_dynamodb_item (self : PDQMatchRecord) : item :=
  [("PK", ItemStr (PDQRecordBase.get_dynamodb_content_key (match_content_key self)));
   ("SK", ItemStr (get_dynamodb_te_key (te_id self)));
   ("ContentHash", ItemStr (match_content_hash self));
   ("Timestamp", ItemStr (isoformat (match_timestamp self)));
   ("TEHash", ItemStr (te_hash self));
   ("GSI1-PK", ItemStr (get_dynamodb_te_key (te_id self)));
   ("GSI1-SK", ItemStr (PDQRecordBase.get_dynamodb_content_key (match_content_key self)));
   ("HashType", ItemStr PDQRecordBase.SIGNAL_TYPE);
   ("GSI2-PK", ItemStr (PDQRecordBase.get_dynamodb_type_key PDQRecordBase.SIGNAL_TYPE))].

Definition PDQMatchRecord_to_sqs_message (self : PDQMatchRecord) : result (list (string * string)) :=
  Raise NotImplementedError.
End Records.

(** A naive [datetime] (no tzinfo) and its [isoformat], to run the records
    on concrete values. *)
Record naive_datetime : Type := mkDatetime {
  year : N; month : N; day : N;
  hour : N; minute : N; second : N; microsecond : N
}.

Definition digit (n : N) : string := String (ascii_of_N (48 + n mod 10)) "".

Fixpoint zero_padded (width : nat) (n : N) : string :=
  match width with
  | O => ""
  | S w => zero_padded w (n / 10) ++ digit n
  end.

Definition naive_isoformat (d : naive_datetime) : string :=
  zero_padded 4 (year d) ++ "-" ++ zero_padded 2 (month d) ++ "-" ++ zero_padded 2 (day d)
  ++ "T" ++ zero_padded 2 (hour d) ++ ":" ++ zero_padded 2 (minute d)
  ++ ":" ++ zero_padded 2 (second d)
  ++ (if (microsecond d =? 0)%N then "" else "." ++ zero_padded 6 (microsecond d)).

(** ** Auxiliary definitions for the proofs *)

(** The text after the first element of an array, and after the first item
    of an object. *)
Fixpoint array_tail (l : list json) : string :=
  match l with
  | [] => "]"
  | y :: l' => ", " ++ json_dumps y ++ array_tail l'
  end.

Fixpoint object_tail (l : list (string * json)) : string :=
  match l with
  | [] => "}"
  | (k, y) :: l' => ", " ++ encode_str k ++ ": " ++ json_dumps y ++ object_tail l'
  end.

(** The fuel that decoding a value needs: one unit per value and one per
    element or item. *)
Fixpoint jsize (v : json) : nat :=
  match v with
  | JNull | JBool _ | JInt _ | JFloat _ | JStr _ => 1
  | JList l =>
      S ((fix sz (l : list json) : nat :=
            match l with [] => 0 | x :: l' => S (jsize x) + sz l' end) l)
  | JDict items =>
      S ((fix sz (l : list (string * json)) : nat :=
            match l with [] => 0 | (_, x) :: l' => S (jsize x) + sz l' end) items)
  end.

Fixpoint array_size (l : list json) : nat :=
  match l with [] => 0 | x :: l' => S (jsize x) + array_size l' end.

Fixpoint object_size (l : list (string * json)) : nat :=
  match l with [] => 0 | (_, x) :: l' => S (jsize x) + object_size l' end.

Fixpoint items_wf (l : list (string * json)) : bool :=
  match l with [] => true | (_, x) :: l' => json_wf x && items_wf l' end.

(** The first character of an encoded value: not white space and not a
    closing bracket. *)
Definition starts_value (s : string) : bool :=
  match s with
  | EmptyString => false
  | String c _ =>
      negb (is_ws c) && negb (c =? "]")%char && negb (c =? "}")%char
  end.

(** A text before which a number ends: it does not go on with a digit, a
    point or an exponent. *)
Definition delimited (s : string) : bool :=
  match s with
  | EmptyString => true
  | String c _ =>
      negb (is_digit c || (c =? ".") || (c =? "e") || (c =? "E"))%char
  end.

Definition head_nonzero (u : Decimal.uint) : bool :=
  match u with
  | Decimal.Nil | Decimal.D0 _ => false
  | _ => true
  end.

(** The decoder reads back an encoded value and leaves the text after it. *)
Definition decodes (v : json) : Prop :=
  json_wf v = true ->
  forall fuel rest, jsize v <= fuel -> delimited rest = true ->
  scan_once fuel (json_dumps v ++ rest) = Some (v, rest).

(** Concrete codec of banked signals, used to run the wire functions. *)
Definition example_to_dict (s : BankedSignal.t) : json :=
  JDict [("BankedContentId", JStr (BankedSignal.signal_id s));
         ("BankId", JStr (BankedSignal.bank_name s));
         ("BankSource", JStr (BankedSignal.bank_source s))].

Definition example_from_dict (d : json) : result BankedSignal.t :=
  (a <- (v <- getitem d "BankedContentId" ;; as_str v) ;;
   b <- (v <- getitem d "BankId" ;; as_str v) ;;
   c <- (v <- getitem d "BankSource" ;; as_str v) ;;
   Ok (BankedSignal.make a b c))%result.

Definition example_signals : list BankedSignal.t :=
  [BankedSignal.make "2862392437204724" "bank 4" "te";
   BankedSignal.make "4194946153908639" "bank 4" "te"].


(** The claim of the specification, in its own words: the call does not
    raise, and what it returns tells the caller whether the exchange
    succeeded. *)
Definition reports_outcome (to_aws_message : MatchMessage.t -> string)
    (self : WebhookActionPerformer) (m : MatchMessage.t) : Prop :=
  exists report : pyobj -> bool,
    forall response : Response,
      exists v, snd (perform_action to_aws_message (fun _ => response) self m) = Ok v
                /\ report v = is_2xx response.

Definition example_to_aws_message (m : MatchMessage.t) : string :=
  json_dumps (MatchMessage.to_sns_message_spec example_to_dict m).

Definition example_webhook : string :=
  "https://webhook.site/ff7ebc37-514a-439e-9a03-46f86989e195".

(** ** Definitions for the further properties *)

(** A queue message goes to [queue], anything else is not a send. *)
Definition sends_only_to (queue : string) (e : effect) : bool :=
  match e with
  | SendMessage q _ => q =? queue
  | _ => true
  end.

(** A decoder of the notification's Message for the examples: the message
    is the JSON text of the match message, without banked signals. *)
Definition example_from_sns_message (message : json) : result MatchMessage.t :=
  (text <- as_str message ;;
   parsed <- json_loads text ;;
   ck <- (v <- getitem parsed "ContentKey" ;; as_str v) ;;
   ch <- (v <- getitem parsed "ContentHash" ;; as_str v) ;;
   sigs <- (v <- getitem parsed "MatchingBankedSignals" ;;
            l <- as_list v ;; rmap example_from_dict l) ;;
   Ok (MatchMessage.make ck ch sigs))%result.

Definition example_notification (m : MatchMessage.t) : list (string * json) :=
  [("Type", JStr "Notification");
   ("Message", JStr (json_dumps (MatchMessage.to_sns_message_spec example_to_dict m)))].

Definition example_record (m : MatchMessage.t) : sqs_record :=
  {| body := json_dumps (JDict (example_notification m)) |}.


(** Reaction labels were resolved. *)
Definition is_resolution (e : effect) : bool :=
  match e with
  | GetReactionLabelsCalled _ _ _ => true
  | _ => false
  end.

(** The effect is about the match message of content key [k]. *)
Definition about (k : string) (e : effect) : bool :=
  match e with
  | LogInfo _ (Some (ArgMatchMessage m)) => MatchMessage.content_key m =? k
  | ReactingIsEnabledCalled m _ => MatchMessage.content_key m =? k
  | GetReactionLabelsCalled m _ _ => MatchMessage.content_key m =? k
  | _ => false
  end.


(** * Properties *)

Unset Implicit Arguments.

(** ** JSON text: the decoder inverts the encoder *)

Lemma append_assoc (a b c : string) : (a ++ b) ++ c = a ++ (b ++ c).
Proof. induction a as [|x a IH]; simpl; [reflexivity | now rewrite IH]. Qed.

Lemma append_nil_r (a : string) : a ++ "" = a.
Proof. induction a as [|x a IH]; simpl; [reflexivity | now rewrite IH]. Qed.

Lemma length_append (a b : string) :
  String.length (a ++ b) = String.length a + String.length b.
Proof. induction a as [|x a IH]; simpl; [reflexivity | now rewrite IH]. Qed.

Lemma scanstring_escape_char (c : ascii) (t : string) :
  scanstring (escape_char c ++ t) = prepend c (scanstring t).
Proof.
  destruct c as [[] [] [] [] [] [] [] []]; reflexivity.
Qed.

Lemma scanstring_escape (s rest : string) :
  scanstring (escape s ++ String dquote rest) = Some (s, rest).
Proof.
  induction s as [|c s IH].
  - reflexivity.
  - cbn [escape]. rewrite append_assoc, scanstring_escape_char, IH. reflexivity.
Qed.

Lemma dumps_list (x : json) (xs : list json) :
  json_dumps (JList (x :: xs)) = "[" ++ json_dumps x ++ array_tail xs.
Proof. reflexivity. Qed.

Lemma dumps_dict (k : string) (x : json) (kvs : list (string * json)) :
  json_dumps (JDict ((k, x) :: kvs))
  = "{" ++ encode_str k ++ ": " ++ json_dumps x ++ object_tail kvs.
Proof. reflexivity. Qed.

Lemma jsize_list (l : list json) : jsize (JList l) = S (array_size l).
Proof. reflexivity. Qed.

Lemma jsize_dict (l : list (string * json)) : jsize (JDict l) = S (object_size l).
Proof. reflexivity. Qed.

Lemma wf_dict (l : list (string * json)) :
  json_wf (JDict l) = distinct (map fst l) && items_wf l.
Proof. reflexivity. Qed.

(** Induction on values, with the hypothesis on every element. *)
Section JsonInd.
Variable P : json -> Prop.
Hypothesis HAtom : forall v, jsize v = 1 -> P v.
Hypothesis HList : forall l, Forall P l -> P (JList l).
Hypothesis HDict : forall items, Forall (fun kv => P (snd kv)) items -> P (JDict items).

Fixpoint json_rect' (v : json) : P v :=
  match v with
  | JNull => HAtom JNull eq_refl
  | JBool b => HAtom (JBool b) eq_refl
  | JInt z => HAtom (JInt z) eq_refl
  | JFloat t => HAtom (JFloat t) eq_refl
  | JStr s => HAtom (JStr s) eq_refl
  | JList l =>
      @HList _ ((fix go (l : list json) : Forall P l :=
                match l with
                | [] => Forall_nil _
                | x :: l' => Forall_cons x (json_rect' x) (go l')
                end) l)
  | JDict items =>
      @HDict _ ((fix go (l : list (string * json)) : Forall (fun kv => P (snd kv)) l :=
                match l with
                | [] => Forall_nil _
                | kv :: l' => Forall_cons kv (json_rect' (snd kv)) (go l')
                end) items)
  end.
End JsonInd.

(** *** Integers *)

Lemma digit_char (c : ascii) :
  is_digit c = true ->
  is_ws c = false /\ (c =? dquote)%char = false /\ (c =? "[")%char = false
  /\ (c =? "{")%char = false /\ (c =? "]")%char = false /\ (c =? "}")%char = false
  /\ (c =? "-")%char = false
  /\ (("n" =? c)%char = false /\ ("t" =? c)%char = false /\ ("f" =? c)%char = false).
Proof.
  destruct c as [[] [] [] [] [] [] [] []]; intros H;
    first [discriminate H | repeat split].
Qed.

Lemma take_digits_uint (u : Decimal.uint) (rest : string) :
  delimited rest = true ->
  take_digits (NilEmpty.string_of_uint u ++ rest) = (NilEmpty.string_of_uint u, rest).
Proof.
  intros Hrest.
  induction u as [|u IH|u IH|u IH|u IH|u IH|u IH|u IH|u IH|u IH|u IH];
    try (cbn [NilEmpty.string_of_uint append take_digits];
         change (is_digit _) with true; cbn iota; rewrite IH; reflexivity).
  cbn [NilEmpty.string_of_uint append].
  destruct rest as [|c r]; [reflexivity|].
  cbn [take_digits]. cbn [delimited] in Hrest.
  destruct (is_digit c); [discriminate Hrest | reflexivity].
Qed.

Lemma nzhead_head (u : Decimal.uint) :
  Decimal.nzhead u = Decimal.Nil \/ head_nonzero (Decimal.nzhead u) = true.
Proof.
  induction u; cbn; auto.
Qed.

(** The decimal form of an integer has no leading zero. *)
Lemma to_int_normal (z : Z) :
  match Z.to_int z with
  | Decimal.Pos u => u = Decimal.D0 Decimal.Nil \/ head_nonzero u = true
  | Decimal.Neg u => head_nonzero u = true
  end.
Proof.
  pose proof (DecimalZ.to_of (Z.to_int z)) as H.
  rewrite DecimalZ.of_to in H.
  destruct (Z.to_int z) as [u|u]; cbn in H.
  - injection H as H. unfold Decimal.unorm in H.
    destruct (nzhead_head u) as [E|E].
    + rewrite E in H. left. now symmetry.
    + right. destruct (Decimal.nzhead u); try discriminate E; rewrite H; reflexivity.
  - destruct (nzhead_head u) as [E|E].
    + rewrite E in H. discriminate H.
    + destruct (Decimal.nzhead u); try discriminate E; injection H as H;
        rewrite H; reflexivity.
Qed.

Lemma int_of_literal_str_of_int (z : Z) : int_of_literal (str_of_int z) = z.
Proof.
  unfold int_of_literal, str_of_int.
  pose proof (to_int_normal z) as N.
  rewrite NilZero.isi.
  - apply DecimalZ.of_to.
  - intros E. rewrite E in N. destruct N as [N|N]; discriminate N.
  - intros E. rewrite E in N. discriminate N.
Qed.

Lemma unsigned_part_uint (u : Decimal.uint) (rest : string) :
  u = Decimal.D0 Decimal.Nil \/ head_nonzero u = true ->
  delimited rest = true ->
  unsigned_part (NilZero.string_of_uint u ++ rest)
  = Some (NilZero.string_of_uint u, rest).
Proof.
  intros [-> | H] Hrest; [reflexivity|].
  destruct u; try discriminate H;
    cbn [NilZero.string_of_uint NilEmpty.string_of_uint append unsigned_part];
    change (is_digit _) with true; cbn [Ascii.eqb Bool.eqb];
    cbn iota; rewrite take_digits_uint by assumption; reflexivity.
Qed.

Lemma fraction_part_delimited (rest : string) :
  delimited rest = true -> fraction_part rest = ("", rest).
Proof.
  destruct rest as [|c r]; [reflexivity|].
  destruct c as [[] [] [] [] [] [] [] []]; intros H;
    first [discriminate H | reflexivity].
Qed.

Lemma exponent_part_delimited (rest : string) :
  delimited rest = true -> exponent_part rest = ("", rest).
Proof.
  destruct rest as [|c r]; [reflexivity|].
  destruct c as [[] [] [] [] [] [] [] []]; intros H;
    first [discriminate H | reflexivity].
Qed.

Lemma integer_part_str_of_int (z : Z) (rest : string) :
  delimited rest = true ->
  integer_part (str_of_int z ++ rest) = Some (str_of_int z, rest).
Proof.
  intros Hrest. unfold str_of_int.
  pose proof (to_int_normal z) as N.
  destruct (Z.to_int z) as [u|u]; cbn [NilZero.string_of_int].
  - pose proof (unsigned_part_uint u rest N Hrest) as E.
    destruct N as [-> | N]; [reflexivity|].
    destruct u; try discriminate N; exact E.
  - cbn [append integer_part].
    rewrite unsigned_part_uint by auto. reflexivity.
Qed.

Lemma match_number_str_of_int (z : Z) (rest : string) :
  delimited rest = true ->
  match_number (str_of_int z ++ rest) = Some (JInt z, rest).
Proof.
  intros Hrest. unfold match_number.
  rewrite integer_part_str_of_int by assumption.
  rewrite fraction_part_delimited by assumption.
  rewrite exponent_part_delimited by assumption.
  now rewrite int_of_literal_str_of_int.
Qed.

(** The first character of a printed integer: a digit or the sign. *)
Lemma str_of_int_head (z : Z) :
  exists c r, str_of_int z = String c r /\ (is_digit c = true \/ c = "-"%char).
Proof.
  unfold str_of_int. pose proof (to_int_normal z) as N.
  destruct (Z.to_int z) as [u|u]; cbn [NilZero.string_of_int].
  - destruct N as [-> | N]; [do 2 eexists; split; [reflexivity | left; reflexivity]|].
    destruct u; try discriminate N;
      do 2 eexists; (split; [reflexivity | left; reflexivity]).
  - do 2 eexists; split; [reflexivity | right; reflexivity].
Qed.

Lemma scan_atom_int (z : Z) (rest : string) :
  delimited rest = true ->
  scan_atom (str_of_int z ++ rest) = Some (JInt z, rest).
Proof.
  intros Hrest.
  pose proof (match_number_str_of_int z rest Hrest) as E.
  destruct (str_of_int_head z) as [c [r [Hs Hc]]].
  rewrite Hs in *. cbn [append] in *.
  unfold scan_atom. cbn [strip_prefix].
  destruct Hc as [Hc | ->].
  - destruct (digit_char c Hc) as [_ [_ [_ [_ [_ [_ [_ [Hn [Ht Hf]]]]]]]]].
    rewrite Hn, Ht, Hf. rewrite E. reflexivity.
  - cbn [Ascii.eqb Bool.eqb]. cbn iota. rewrite E. reflexivity.
Qed.

Lemma scan_once_atom (fuel : nat) (c : ascii) (r : string) :
  (c =? dquote)%char = false -> (c =? "[")%char = false -> (c =? "{")%char = false ->
  scan_once (S fuel) (String c r) = scan_atom (String c r).
Proof.
  intros H1 H2 H3. cbn [scan_once]. now rewrite H1, H2, H3.
Qed.

Lemma scan_once_int (fuel : nat) (z : Z) (rest : string) :
  delimited rest = true ->
  scan_once (S fuel) (str_of_int z ++ rest) = Some (JInt z, rest).
Proof.
  intros Hrest.
  pose proof (scan_atom_int z rest Hrest) as E.
  destruct (str_of_int_head z) as [c [r [Hs Hc]]].
  rewrite Hs in *. cbn [append] in *.
  rewrite scan_once_atom; [exact E | | |];
    destruct Hc as [Hc | ->];
    try reflexivity;
    destruct (digit_char c Hc) as [_ [Hq [Hb [Ho _]]]]; assumption.
Qed.

(** *** Values *)

Lemma dumps_starts (v : json) (rest : string) :
  json_wf v = true -> starts_value (json_dumps v ++ rest) = true.
Proof.
  intros Hwf.
  destruct v as [|[]|z|t|s|[|x xs]|[|[k x] kvs]]; try reflexivity.
  - cbn [json_dumps]. destruct (str_of_int_head z) as [c [r [Hs Hc]]].
    rewrite Hs. cbn [append starts_value].
    destruct Hc as [Hc | ->]; [|reflexivity].
    destruct (digit_char c Hc) as [Hw [_ [_ [_ [Hb [Hc' _]]]]]].
    now rewrite Hw, Hb, Hc'.
  - discriminate Hwf.
Qed.

Lemma skip_ws_starts (s : string) : starts_value s = true -> skip_ws s = s.
Proof.
  destruct s as [|c r]; [reflexivity|]. cbn [starts_value skip_ws].
  destruct (is_ws c); [discriminate | reflexivity].
Qed.

Lemma skip_ws_dumps (v : json) (rest : string) :
  json_wf v = true -> skip_ws (json_dumps v ++ rest) = json_dumps v ++ rest.
Proof. intros H. now apply skip_ws_starts, dumps_starts. Qed.

(** The decoder on each opening character. *)
Lemma scan_once_str (fuel : nat) (r : string) :
  scan_once (S fuel) (String dquote r)
  = match scanstring r with
    | Some (str, r') => Some (JStr str, r')
    | None => None
    end.
Proof. reflexivity. Qed.

Lemma scan_once_array (fuel : nat) (r : string) :
  starts_value r = true ->
  scan_once (S fuel) (String "[" r)
  = match parse_array fuel r with
    | Some (vs, r2) => Some (JList vs, r2)
    | None => None
    end.
Proof.
  intros H. cbn [scan_once]. change ("[" =? dquote)%char with false.
  change ("[" =? "[")%char with true. cbn iota.
  rewrite skip_ws_starts by assumption.
  destruct r as [|c r]; [discriminate H|].
  destruct c as [[] [] [] [] [] [] [] []];
    first [discriminate H | reflexivity].
Qed.

Lemma scan_once_object (fuel : nat) (r : string) :
  scan_once (S fuel) (String "{" (String dquote r))
  = match parse_object fuel r with
    | Some (kvs, r2) => Some (JDict (dict_of_pairs kvs), r2)
    | None => None
    end.
Proof. reflexivity. Qed.

Lemma parse_array_step (fuel : nat) (s : string) :
  parse_array (S fuel) s
  = match scan_once fuel s with
    | Some (v, r) =>
        match skip_ws r with
        | String "]" r' => Some ([v], r')
        | String "," r' =>
            match parse_array fuel (skip_ws r') with
            | Some (vs, r2) => Some (v :: vs, r2)
            | None => None
            end
        | _ => None
        end
    | None => None
    end.
Proof. reflexivity. Qed.

Lemma parse_object_step (fuel : nat) (s : string) :
  parse_object (S fuel) s
  = match scanstring s with
    | Some (k, r) =>
        match skip_ws r with
        | String ":" r1 =>
            match scan_once fuel (skip_ws r1) with
            | Some (v, r2) =>
                match skip_ws r2 with
                | String "}" r3 => Some ([(k, v)], r3)
                | String "," r3 =>
                    match skip_ws r3 with
                    | String q r4 =>
                        if (q =? dquote)%char then
                          match parse_object fuel r4 with
                          | Some (kvs, r5) => Some ((k, v) :: kvs, r5)
                          | None => None
                          end
                        else None
                    | EmptyString => None
                    end
                | _ => None
                end
            | None => None
            end
        | _ => None
        end
    | None => None
    end.
Proof. reflexivity. Qed.

Lemma array_tail_delimited (xs : list json) (rest : string) :
  delimited (array_tail xs ++ rest) = true.
Proof. destruct xs; reflexivity. Qed.

Lemma object_tail_delimited (kvs : list (string * json)) (rest : string) :
  delimited (object_tail kvs ++ rest) = true.
Proof. destruct kvs as [|[k x] kvs]; reflexivity. Qed.

Lemma parse_array_dumps (x : json) (xs : list json) :
  Forall decodes (x :: xs) ->
  forallb json_wf (x :: xs) = true ->
  forall fuel rest, array_size (x :: xs) <= fuel ->
  parse_array fuel (json_dumps x ++ array_tail xs ++ rest) = Some (x :: xs, rest).
Proof.
  revert x. induction xs as [|y ys IH]; intros x HP Hwf fuel rest Hfuel.
  - inversion HP as [|? ? Hx _]; subst.
    cbn [forallb] in Hwf. apply andb_true_iff in Hwf as [Hwx _].
    cbn [array_size] in Hfuel.
    destruct fuel as [|fuel]; [lia|].
    rewrite parse_array_step, (Hx Hwx) by (first [lia | reflexivity]).
    reflexivity.
  - inversion HP as [|? ? Hx HP']; subst.
    cbn [forallb] in Hwf. apply andb_true_iff in Hwf as [Hwx Hwf'].
    cbn [array_size] in Hfuel.
    destruct fuel as [|fuel]; [lia|].
    rewrite parse_array_step, (Hx Hwx) by (first [lia | reflexivity]).
    cbn [array_tail].
    change ((", " ++ json_dumps y ++ array_tail ys) ++ rest)
      with (String "," (String " " ((json_dumps y ++ array_tail ys) ++ rest))).
    cbn [skip_ws is_ws]. cbn.
    rewrite append_assoc, skip_ws_dumps
      by (cbn [forallb] in Hwf'; apply andb_true_iff in Hwf'; tauto).
    rewrite (IH y HP' Hwf') by (cbn [array_size]; lia).
    reflexivity.
Qed.

Lemma encode_str_append (k rest : string) :
  encode_str k ++ rest = String dquote (escape k ++ String dquote rest).
Proof. unfold encode_str. cbn [append]. now rewrite append_assoc. Qed.

Lemma parse_object_dumps (k : string) (x : json) (kvs : list (string * json)) :
  Forall (fun kv => decodes (snd kv)) ((k, x) :: kvs) ->
  items_wf ((k, x) :: kvs) = true ->
  forall fuel rest, object_size ((k, x) :: kvs) <= fuel ->
  parse_object fuel
    (escape k ++ String dquote (": " ++ json_dumps x ++ object_tail kvs ++ rest))
  = Some ((k, x) :: kvs, rest).
Proof.
  revert k x. induction kvs as [|[k' y] ys IH]; intros k x HP Hwf fuel rest Hfuel.
  - inversion HP as [|? ? Hx _]; subst. cbn [snd] in Hx.
    cbn [items_wf] in Hwf. apply andb_true_iff in Hwf as [Hwx _].
    cbn [object_size] in Hfuel.
    destruct fuel as [|fuel]; [lia|].
    rewrite parse_object_step, scanstring_escape.
    change (skip_ws (": " ++ json_dumps x ++ object_tail [] ++ rest))
      with (String ":" (String " " (json_dumps x ++ object_tail [] ++ rest))).
    cbn iota beta.
    change (skip_ws (String " " (json_dumps x ++ object_tail [] ++ rest)))
      with (skip_ws (json_dumps x ++ object_tail [] ++ rest)).
    rewrite skip_ws_dumps, (Hx Hwx) by (first [assumption | lia | reflexivity]).
    reflexivity.
  - inversion HP as [|? ? Hx HP']; subst. cbn [snd] in Hx.
    cbn [items_wf] in Hwf. apply andb_true_iff in Hwf as [Hwx Hwf'].
    cbn [object_size] in Hfuel.
    destruct fuel as [|fuel]; [lia|].
    rewrite parse_object_step, scanstring_escape.
    change (skip_ws (": " ++ json_dumps x ++ object_tail ((k', y) :: ys) ++ rest))
      with (String ":" (String " " (json_dumps x ++ object_tail ((k', y) :: ys) ++ rest))).
    cbn iota beta.
    change (skip_ws (String " " (json_dumps x ++ object_tail ((k', y) :: ys) ++ rest)))
      with (skip_ws (json_dumps x ++ object_tail ((k', y) :: ys) ++ rest)).
    rewrite skip_ws_dumps, (Hx Hwx) by (first [assumption | lia | reflexivity]).
    cbn [object_tail].
    rewrite !append_assoc, encode_str_append.
    change (skip_ws ((", " ++ String dquote (escape k' ++ String dquote (": " ++ json_dumps y ++ object_tail ys ++ rest)))))
      with (String "," (String " " (String dquote (escape k' ++ String dquote (": " ++ json_dumps y ++ object_tail ys ++ rest))))).
    cbn iota beta.
    change (skip_ws (String " " (String dquote (escape k' ++ String dquote (": " ++ json_dumps y ++ object_tail ys ++ rest)))))
      with (String dquote (escape k' ++ String dquote (": " ++ json_dumps y ++ object_tail ys ++ rest))).
    cbn iota beta.
    change (dquote =? dquote)%char with true. cbn iota.
    rewrite (IH k' y HP' Hwf') by (cbn [object_size]; lia).
    reflexivity.
Qed.

Lemma dict_set_fresh (d : list (string * json)) (k : string) (v : json) :
  existsb (String.eqb k) (map fst d) = false ->
  dict_set d k v = (d ++ [(k, v)])%list.
Proof.
  induction d as [|[k' v'] d IH]; cbn; [reflexivity|].
  intros H. apply orb_false_iff in H as [Hk Hd].
  rewrite Hk, IH by assumption. reflexivity.
Qed.

Lemma existsb_eqb_In (k : string) (l : list string) :
  existsb (String.eqb k) l = true <-> In k l.
Proof.
  rewrite existsb_exists. split.
  - intros [y [Hy Hk]]. apply String.eqb_eq in Hk. now subst.
  - intros H. exists k. split; [assumption | apply String.eqb_refl].
Qed.

Lemma existsb_eqb_not_In (k : string) (l : list string) :
  existsb (String.eqb k) l = false <-> ~ In k l.
Proof.
  rewrite <- existsb_eqb_In. destruct (existsb _ l); split; intros; congruence.
Qed.

Lemma fold_dict_set (kvs acc : list (string * json)) :
  distinct (map fst kvs) = true ->
  (forall k, In k (map fst kvs) -> ~ In k (map fst acc)) ->
  fold_left (fun d kv => dict_set d (fst kv) (snd kv)) kvs acc = (acc ++ kvs)%list.
Proof.
  revert acc. induction kvs as [|[k v] kvs IH]; intros acc Hd Hfresh.
  - cbn. now rewrite app_nil_r.
  - cbn [map fst distinct] in Hd. apply andb_true_iff in Hd as [Hk Hd].
    apply negb_true_iff, existsb_eqb_not_In in Hk.
    cbn [fold_left fst snd].
    rewrite dict_set_fresh.
    + rewrite IH; [now rewrite <- app_assoc | assumption |].
      intros k' Hk' Hin. rewrite map_app, in_app_iff in Hin.
      destruct Hin as [Hin | [Heq | []]].
      * apply (Hfresh k'); [right; assumption | assumption].
      * cbn in Heq. subst. contradiction.
    + apply existsb_eqb_not_In, Hfresh. left. reflexivity.
Qed.

Lemma dict_of_pairs_distinct (kvs : list (string * json)) :
  distinct (map fst kvs) = true -> dict_of_pairs kvs = kvs.
Proof.
  intros H. unfold dict_of_pairs. rewrite fold_dict_set; auto.
Qed.

Theorem scan_once_dumps (v : json) : decodes v.
Proof.
  induction v as [v Hv|l IH|items IH] using json_rect';
    intros Hwf fuel rest Hfuel Hrest.
  - rewrite Hv in Hfuel. destruct fuel as [|fuel]; [lia|].
    destruct v as [|[]|z|t|s|l|items]; try reflexivity.
    + now apply scan_once_int.
    + discriminate Hwf.
    + cbn [json_dumps]. rewrite encode_str_append, scan_once_str, scanstring_escape.
      reflexivity.
    + destruct l; [reflexivity | discriminate Hv].
    + destruct items as [|[k x] kvs]; [reflexivity | discriminate Hv].
  - rewrite jsize_list in Hfuel.
    destruct fuel as [|fuel]; [lia|].
    destruct l as [|x xs]; [reflexivity|].
    rewrite dumps_list.
    change (("[" ++ json_dumps x ++ array_tail xs) ++ rest)
      with (String "[" ((json_dumps x ++ array_tail xs) ++ rest)).
    rewrite append_assoc.
    rewrite scan_once_array
      by (apply dumps_starts; cbn in Hwf; apply andb_true_iff in Hwf; tauto).
    rewrite parse_array_dumps; [reflexivity | assumption | exact Hwf | lia].
  - rewrite jsize_dict in Hfuel. rewrite wf_dict in Hwf.
    apply andb_true_iff in Hwf as [Hd Hwf].
    destruct fuel as [|fuel]; [lia|].
    destruct items as [|[k x] kvs]; [reflexivity|].
    rewrite dumps_dict.
    change (("{" ++ encode_str k ++ ": " ++ json_dumps x ++ object_tail kvs) ++ rest)
      with (String "{" ((encode_str k ++ ": " ++ json_dumps x ++ object_tail kvs) ++ rest)).
    rewrite append_assoc, encode_str_append.
    change ((": " ++ json_dumps x ++ object_tail kvs) ++ rest)
      with (": " ++ (json_dumps x ++ object_tail kvs) ++ rest).
    rewrite append_assoc.
    rewrite scan_once_object.
    rewrite parse_object_dumps; [| assumption | assumption | lia].
    rewrite dict_of_pairs_distinct by assumption.
    reflexivity.
Qed.

Lemma jsize_le_length (v : json) : jsize v <= S (String.length (json_dumps v)).
Proof.
  induction v as [v Hv|l IH|items IH] using json_rect'.
  - rewrite Hv. lia.
  - rewrite jsize_list. destruct l as [|x xs]; [cbn; lia|].
    rewrite dumps_list.
    change ("[" ++ json_dumps x ++ array_tail xs)
      with (String "[" (json_dumps x ++ array_tail xs)).
    cbn [String.length]. rewrite length_append.
    inversion IH as [|? ? Hx Hxs]; subst.
    cbn [array_size].
    assert (H : array_size xs + 1 <= String.length (array_tail xs)).
    { clear Hx IH. induction Hxs as [|y ys Hy _ IHys]; [cbn; lia|].
      cbn [array_size array_tail].
      change (", " ++ json_dumps y ++ array_tail ys)
        with (String "," (String " " (json_dumps y ++ array_tail ys))).
      cbn [String.length]. rewrite length_append. lia. }
    lia.
  - rewrite jsize_dict. destruct items as [|[k x] kvs]; [cbn; lia|].
    rewrite dumps_dict.
    change ("{" ++ encode_str k ++ ": " ++ json_dumps x ++ object_tail kvs)
      with (String "{" (encode_str k ++ String ":" (String " " (json_dumps x ++ object_tail kvs)))).
    cbn [String.length]. rewrite length_append. cbn [String.length]. rewrite length_append.
    inversion IH as [|? ? Hx Hxs]; subst. cbn [snd] in Hx.
    cbn [object_size].
    assert (H : object_size kvs + 1 <= String.length (object_tail kvs)).
    { clear Hx IH. induction Hxs as [|[k' y] ys Hy _ IHys]; [cbn; lia|].
      cbn [snd] in Hy.
      cbn [object_size object_tail].
      change (", " ++ encode_str k' ++ ": " ++ json_dumps y ++ object_tail ys)
        with (String "," (String " " (encode_str k' ++ String ":" (String " " (json_dumps y ++ object_tail ys))))).
      cbn [String.length]. rewrite length_append. cbn [String.length].
      rewrite length_append. lia. }
    lia.
Qed.

Theorem json_loads_dumps (v : json) :
  json_wf v = true -> json_loads (json_dumps v) = Ok v.
Proof.
  intros Hwf. unfold json_loads.
  rewrite <- (append_nil_r (json_dumps v)) at 2.
  rewrite skip_ws_dumps by assumption.
  rewrite (scan_once_dumps v Hwf).
  - reflexivity.
  - apply jsize_le_length.
  - reflexivity.
Qed.

Lemma Label_eqb_eq (a b : Label) : Label_eqb a b = true <-> a = b.
Proof.
  destruct a as [ka va], b as [kb vb]; unfold Label_eqb; simpl.
  rewrite andb_true_iff, !String.eqb_eq.
  split.
  - intros [-> ->]; reflexivity.
  - intros H; injection H; auto.
Qed.

(** ** Wire messages *)

Section WireRoundTrip.
Variable to_dict : BankedSignal.t -> json.
Variable from_dict : json -> result BankedSignal.t.
Hypothesis from_to_dict : forall s, from_dict (to_dict s) = Ok s.
Hypothesis to_dict_wf : forall s, json_wf (to_dict s) = true.

Lemma rmap_from_dict (l : list BankedSignal.t) :
  rmap from_dict (map to_dict l) = Ok l.
Proof.
  induction l as [|s l IH]; [reflexivity|].
  cbn [map rmap]. rewrite from_to_dict. cbn [rbind]. rewrite IH. reflexivity.
Qed.

Lemma signals_wf (l : list BankedSignal.t) :
  forallb json_wf (map to_dict l) = true.
Proof.
  induction l as [|s l IH]; [reflexivity|].
  cbn [map forallb]. now rewrite to_dict_wf, IH.
Qed.

Lemma message_dict_wf (ck ch field v : string) (l : list BankedSignal.t) :
  distinct ["ContentKey"; "ContentHash"; "MatchingBankedSignals"; field] = true ->
  json_wf (JDict [("ContentKey", JStr ck); ("ContentHash", JStr ch);
                  ("MatchingBankedSignals", JList (map to_dict l));
                  (field, JStr v)]) = true.
Proof.
  intros Hd. rewrite wf_dict. cbn [map fst]. rewrite Hd.
  cbn [items_wf json_wf andb]. fold json_wf.
  change (json_wf (JList (map to_dict l))) with (forallb json_wf (map to_dict l)).
  now rewrite signals_wf.
Qed.

End WireRoundTrip.







(** ** Rule applicability *)

(** C1.  [action_rule_applies_to_match_message] answers True whatever the
    labels are.  For a rule that asks for a label and forbids the same label
    the condition of the specification is false for every derivation of
    labels, and for the rule of the catalog it is false on a message that
    carries no label; the function answers True on both. *)
Theorem action_rule_applies_ignores_labels (derived_labels : MatchMessage.t -> list Label)
    (match_message : MatchMessage.t) :
  let l := mkLabel "Collaboration" "12345" in
  let contradictory := ActionRule.make (ActionLabel "EnqueueForReview") [l] [l] in
  (action_rule_applies_to_match_message contradictory match_message = true
   /\ rule_applies_spec (derived_labels match_message) contradictory = false)
  /\ Forall (fun rule =>
               action_rule_applies_to_match_message rule match_message = true
               /\ rule_applies_spec [] rule = false)
            get_action_rules.
Proof.
  intros l contradictory. split.
  - split; [reflexivity|].
    unfold rule_applies_spec, contradictory. cbn [ActionRule.must_have_labels
      ActionRule.must_not_have_labels forallb existsb].
    destruct (contains (derived_labels match_message) l); reflexivity.
  - repeat constructor.
Qed.

(** ** The handler's trace *)

Lemma trace_bind {A B} (m : M A) (k : A -> M B) (a : A) :
  outcome m = Ok a -> trace (bind m k) = (trace m ++ trace (k a))%list.
Proof.
  destruct m as [t [x|e]]; cbn; intros H; [|discriminate].
  injection H as ->. destruct (k a); reflexivity.
Qed.

Lemma outcome_bind {A B} (m : M A) (k : A -> M B) (a : A) :
  outcome m = Ok a -> outcome (bind m k) = outcome (k a).
Proof.
  destruct m as [t [x|e]]; cbn; intros H; [|discriminate].
  injection H as ->. destruct (k a); reflexivity.
Qed.

Lemma for_each_send (url body : string) (labels : list Label) :
  for_each labels (fun _ => tell (SendMessage url body))
  = (map (fun _ => SendMessage url body) labels, Ok tt).
Proof.
  induction labels as [|l ls IH]; [reflexivity|].
  cbn [for_each map]. rewrite IH. reflexivity.
Qed.

Lemma sent_bodies_sends (url body : string) (labels : list Label) (t : list effect) :
  sent_bodies (map (fun _ => SendMessage url body) labels ++ t)
  = (map (fun _ => body) labels ++ sent_bodies t)%list.
Proof.
  induction labels as [|l ls IH]; [reflexivity|].
  cbn [map app sent_bodies]. now rewrite IH.
Qed.

(** The loop body, spelled out for each answer of the lookup. *)
Lemma evaluate_disabled (url : string) (to_sns : MatchMessage.t -> json)
    (enabled : MatchMessage.t -> bool) (m : MatchMessage.t) :
  enabled m = false ->
  evaluate_match_message url to_sns enabled m
  = ((LogInfo "Evaluating match_message: %s" (Some (ArgMatchMessage m))
      :: map (fun _ => SendMessage url (json_dumps (to_sns m))) (get_action_labels m)
      ++ [ReactingIsEnabledCalled m false])%list,
     Ok tt).
Proof.
  intros H. unfold evaluate_match_message. rewrite H, for_each_send.
  reflexivity.
Qed.

Lemma evaluate_enabled (url : string) (to_sns : MatchMessage.t -> json)
    (enabled : MatchMessage.t -> bool) (m : MatchMessage.t) :
  enabled m = true ->
  evaluate_match_message url to_sns enabled m
  = ((LogInfo "Evaluating match_message: %s" (Some (ArgMatchMessage m))
      :: map (fun _ => SendMessage url (json_dumps (to_sns m))) (get_action_labels m)
      ++ [ReactingIsEnabledCalled m true;
          GetReactionLabelsCalled m (get_action_labels m)
            [ThreatExchangeReactionLabel "SAW_THIS_TOO"];
          LogInfo "The contents of a ThreatExchangeReactionMessage will contain the following:" None])%list,
     Raise (AttributeError "ingo")).
Proof.
  intros H. unfold evaluate_match_message. rewrite H, for_each_send.
  cbn. reflexivity.
Qed.

Lemma get_action_labels_const (m : MatchMessage.t) :
  get_action_labels m = [ActionLabel "EnqueueForReview"].
Proof. reflexivity. Qed.

(** ** Dispatch of action messages *)

(** C3.  The body the handler publishes for each resolved action label is
    the encoding of the match message alone: one body per label, the same for
    every label.  On the message [MatchMessage("key", "hash", [])] the label
    resolved is EnqueueForReview and the published body is not the encoding
    of the ActionMessage built from the message and that label; decoding it
    as an ActionMessage fails on the missing ActionLabelValue. *)
Theorem published_body_ignores_action_label
    (url : string) (to_dict : BankedSignal.t -> json)
    (from_dict : json -> result BankedSignal.t)
    (to_sns_message : MatchMessage.t -> json)
    (enabled : MatchMessage.t -> bool) (m : MatchMessage.t) :
  sent_bodies (trace (evaluate_match_message url to_sns_message enabled m))
  = map (fun _ => json_dumps (to_sns_message m)) (get_action_labels m)
  /\ (let m0 := MatchMessage.make "key" "hash" [] in
      let label := ActionLabel "EnqueueForReview" in
      let sent := json_dumps (MatchMessage.to_sns_message_spec to_dict m0) in
      get_action_labels m0 = [label]
      /\ sent_bodies (trace (evaluate_match_message url
                               (MatchMessage.to_sns_message_spec to_dict) enabled m0))
         = [sent]
      /\ sent <> ActionMessage.to_aws_message to_dict
                   (ActionMessage.from_match_message_and_label m0 label)
      /\ ActionMessage.from_aws_message from_dict sent
         = Raise (KeyError "ActionLabelValue")).
Proof.
  split.
  - destruct (enabled m) eqn:E.
    + rewrite evaluate_enabled by assumption. cbn [trace fst sent_bodies].
      rewrite sent_bodies_sends. cbn [sent_bodies]. now rewrite app_nil_r.
    + rewrite evaluate_disabled by assumption. cbn [trace fst sent_bodies].
      rewrite sent_bodies_sends. cbn [sent_bodies]. now rewrite app_nil_r.
  - cbv zeta. split; [reflexivity|]. split; [|split].
    + destruct (enabled (MatchMessage.make "key" "hash" [])) eqn:E.
      * rewrite evaluate_enabled by assumption. reflexivity.
      * rewrite evaluate_disabled by assumption. reflexivity.
    + vm_compute. discriminate.
    + vm_compute. reflexivity.
Qed.

(** ** Supersession *)

(** C4.  [remove_superseded_actions] returns its argument.  With the catalog
    of [get_actions], where ENQUEUE_FOR_REVIEW is superseded by
    A_MORE_IMPORTANT_ACTION, the list of both labels is returned whole, where
    the specification keeps A_MORE_IMPORTANT_ACTION only. *)
Theorem remove_superseded_actions_keeps_superseded :
  let a := ActionLabel "ENQUEUE_FOR_REVIEW" in
  let b := ActionLabel "A_MORE_IMPORTANT_ACTION" in
  (forall action_labels, remove_superseded_actions action_labels = action_labels)
  /\ superseded_by_of get_actions a = [b]
  /\ remove_superseded_actions [a; b] = [a; b]
  /\ remove_superseded_spec get_actions [a; b] = [b].
Proof. repeat split. Qed.

(** ** Fixed-key label kinds *)

(** [Label] itself is accepted, and so is a kind whose [key] is annotated. *)
Lemma dataclass_accepts_annotated (k : label_kind) :
  dataclass Label_class = Ok Label_class
  /\ (let c := mkClass (kind_class_name k) ["key"]
                  [("key", AttrField (Some (kind_key k)) false)] in
      dataclass c = Ok c).
Proof. split; reflexivity. Qed.

(** C5.  As declared, no fixed-key label can be constructed: the class
    statement of every kind is refused by [dataclass], since [key] is bound
    to a field and has no annotation.  The label the declaration is written
    to build has the kind's constant key and the given value. *)
Theorem construct_fixed_key_label_raises (k : label_kind) (v : string) :
  construct k v = Raise (TypeError "'key' is a field but has no type annotation")
  /\ key (fixed_key_label k v) = kind_key k
  /\ value (fixed_key_label k v) = v.
Proof. destruct k; repeat split. Qed.

(** ** Label equality *)

Lemma label_eq_decided_by_other (l : Label) (v : pyobj) :
  isinstance_Label v = false ->
  py_eq (PyLabel l) v = decided_by (dunder_eq v (PyLabel l))
  /\ py_eq v (PyLabel l) = decided_by (dunder_eq v (PyLabel l)).
Proof.
  intros Hv. destruct v; try discriminate Hv; split; reflexivity.
Qed.

(** C6, as stated, fails: a label compared with [unittest.mock.ANY] is
    equal to it, and compared with an object whose [__eq__] raises, the
    comparison raises. *)
Lemma label_equal_to_non_label :
  ~ never_equal_to_non_label
  /\ isinstance_Label mock_ANY = false
  /\ py_eq (PyLabel (mkLabel "K" "V")) mock_ANY = Ok true
  /\ py_eq (PyLabel (mkLabel "K" "V")) raising_eq = Raise (TypeError "cannot compare").
Proof.
  split; [|repeat split].
  intros H. specialize (H (mkLabel "K" "V") mock_ANY eq_refl). discriminate H.
Qed.

(** C6, amended.  Label equality is component-wise between labels:
    [Label("K","V") == Label("K","V")], [Label("K","V") != Label("K","X")],
    and two labels are equal iff key and value both match.  Against a value
    that is not a label [Label.__eq__] never raises: it answers
    NotImplemented, so that the comparison, on either side, is what the
    other operand's [__eq__] makes of it: False when that declines too, as
    for None, bool, int, str and objects with the default equality, and
    otherwise what it answers or raises. *)
Theorem label_equality (a b l : Label) (v : pyobj)
    (Hv : isinstance_Label v = false) :
  py_eq (PyLabel (mkLabel "K" "V")) (PyLabel (mkLabel "K" "V")) = Ok true
  /\ py_ne (PyLabel (mkLabel "K" "V")) (PyLabel (mkLabel "K" "X")) = Ok true
  /\ (exists r, py_eq (PyLabel a) (PyLabel b) = Ok r
                /\ (r = true <-> key a = key b /\ value a = value b))
  /\ Label__eq__ l v = NotImplemented
  /\ py_eq (PyLabel l) v = decided_by (dunder_eq v (PyLabel l))
  /\ py_eq v (PyLabel l) = decided_by (dunder_eq v (PyLabel l))
  /\ match v with
     | PyCustom _ _ _ => True
     | _ => py_eq (PyLabel l) v = Ok false
            /\ py_eq v (PyLabel l) = Ok false
            /\ py_ne (PyLabel l) v = Ok true
     end.
Proof.
  split; [reflexivity|]. split; [reflexivity|]. split.
  - exists ((key a =? key b) && (value a =? value b)). split; [reflexivity|].
    now rewrite andb_true_iff, !String.eqb_eq.
  - destruct (label_eq_decided_by_other l v Hv) as [E1 E2].
    split; [destruct v; try discriminate Hv; reflexivity|].
    split; [exact E1|]. split; [exact E2|].
    destruct v; try discriminate Hv; repeat split.
Qed.

(** A label against an integer. *)
Lemma label_equality_witness :
  py_eq (PyLabel (mkLabel "K" "V")) (PyInt 3) = Ok false
  /\ py_eq (PyInt 3) (PyLabel (mkLabel "K" "V")) = Ok false
  /\ py_ne (PyLabel (mkLabel "K" "V")) (PyInt 3) = Ok true.
Proof.
  apply (label_equality (mkLabel "K" "V") (mkLabel "K" "V") (mkLabel "K" "V") (PyInt 3)).
  reflexivity.
Defined.

(** ** DynamoDB items *)

(** C7.  The item of a hash record has exactly the keys PK, SK,
    ContentHash, Quality, Timestamp, HashType, with PK = "c#" + content_key,
    SK = "type#" + hash type and Timestamp the ISO-8601 text of the
    timestamp; the item of a match record has exactly the keys PK, SK,
    ContentHash, Timestamp, TEHash, GSI1-PK, GSI1-SK, HashType, GSI2-PK, with
    PK = "c#" + content_key, SK = GSI1-PK = "te#" + te_id,
    GSI1-SK = "c#" + content_key and GSI2-PK = "type#" + hash type. *)
Theorem to_dynamodb_item_layout (datetime : Type) (isoformat : datetime -> string)
    (h : PipelinePDQHashRecord datetime) (r : PDQMatchRecord datetime) :
  let hi := PipelinePDQHashRecord_to_dynamodb_item isoformat h in
  let ri := PDQMatchRecord_to_dynamodb_item isoformat r in
  let hash_type := "pdq" in
  (map fst hi = ["PK"; "SK"; "ContentHash"; "Quality"; "Timestamp"; "HashType"]
   /\ assoc_get "PK" hi = Some (ItemStr ("c#" ++ hash_content_key h))
   /\ assoc_get "SK" hi = Some (ItemStr ("type#" ++ hash_type))
   /\ assoc_get "ContentHash" hi = Some (ItemStr (hash_content_hash h))
   /\ assoc_get "Quality" hi = Some (ItemInt (quality h))
   /\ assoc_get "Timestamp" hi = Some (ItemStr (isoformat (hash_timestamp h)))
   /\ assoc_get "HashType" hi = Some (ItemStr hash_type))
  /\ (map fst ri = ["PK"; "SK"; "ContentHash"; "Timestamp"; "TEHash";
                    "GSI1-PK"; "GSI1-SK"; "HashType"; "GSI2-PK"]
      /\ assoc_get "PK" ri = Some (ItemStr ("c#" ++ match_content_key r))
      /\ assoc_get "SK" ri = Some (ItemStr ("te#" ++ str_of_int (te_id r)))
      /\ assoc_get "ContentHash" ri = Some (ItemStr (match_content_hash r))
      /\ assoc_get "Timestamp" ri = Some (ItemStr (isoformat (match_timestamp r)))
      /\ assoc_get "TEHash" ri = Some (ItemStr (te_hash r))
      /\ assoc_get "HashType" ri = Some (ItemStr hash_type)
      /\ assoc_get "GSI1-PK" ri = Some (ItemStr ("te#" ++ str_of_int (te_id r)))
      /\ assoc_get "GSI1-SK" ri = Some (ItemStr ("c#" ++ match_content_key r))
      /\ assoc_get "GSI2-PK" ri = Some (ItemStr ("type#" ++ hash_type))).
Proof. repeat split. Qed.

Example hash_record_item :
  PipelinePDQHashRecord_to_dynamodb_item naive_isoformat
    (mkHashRecord "images/a.jpg" "f8f8f0cee0f4a84f" (mkDatetime 2021 2 9 17 5 0 123) 100)
  = [("PK", ItemStr "c#images/a.jpg"); ("SK", ItemStr "type#pdq");
     ("ContentHash", ItemStr "f8f8f0cee0f4a84f"); ("Quality", ItemInt 100);
     ("Timestamp", ItemStr "2021-02-09T17:05:00.000123"); ("HashType", ItemStr "pdq")].
Proof. reflexivity. Qed.

Example match_record_item :
  PDQMatchRecord_to_dynamodb_item naive_isoformat
    (mkMatchRecord "images/a.jpg" "f8f8f0cee0f4a84f" (mkDatetime 2021 2 9 17 5 0 0)
                   2862392437204724 "f8f8f0cee0f4a84e")
  = [("PK", ItemStr "c#images/a.jpg"); ("SK", ItemStr "te#2862392437204724");
     ("ContentHash", ItemStr "f8f8f0cee0f4a84f");
     ("Timestamp", ItemStr "2021-02-09T17:05:00");
     ("TEHash", ItemStr "f8f8f0cee0f4a84e");
     ("GSI1-PK", ItemStr "te#2862392437204724"); ("GSI1-SK", ItemStr "c#images/a.jpg");
     ("HashType", ItemStr "pdq"); ("GSI2-PK", ItemStr "type#pdq")].
Proof. reflexivity. Qed.

(** ** The handler on an event without records *)

Lemma lambda_handler_empty
    (url : string) (from_sns_message : json -> result MatchMessage.t)
    (to_sns_message : MatchMessage.t -> json) :
  lambda_handler url from_sns_message to_sns_message []
  = ([], Ok [("action_evaluated", "true")]).
Proof. reflexivity. Qed.

(** ** Webhook performers *)

(** C9, as stated, fails for the POST performer: what [perform_action]
    returns is the same for a 200 and for a 500 response. *)
Lemma post_performer_discards_response :
  ~ reports_outcome example_to_aws_message
      (mkPerformer POST "PostWebhook" example_webhook)
      (MatchMessage.make "key" "hash" example_signals).
Proof.
  intros [report H].
  destruct (H (mkResponse 200)) as [v [Hv Hr]].
  destruct (H (mkResponse 500)) as [w [Hw Hs]].
  cbn in Hv, Hw. injection Hv as <-. injection Hw as <-.
  cbn in Hr, Hs. congruence.
Qed.

(** C9, amended.  For the POST and PUT performers and every match message,
    [perform_action] makes one request, with the encoded message as body,
    and, whatever the status of the response, does not raise and returns
    None. *)
Theorem perform_action_returns_none
    (to_aws_message : MatchMessage.t -> string) (http : http_request -> Response)
    (name url : string) (m : MatchMessage.t) :
  perform_action to_aws_message http (mkPerformer POST name url) m
  = ([mkRequest POST url (Some (to_aws_message m))], Ok PyNone)
  /\ perform_action to_aws_message http (mkPerformer PUT name url) m
     = ([mkRequest PUT url (Some (to_aws_message m))], Ok PyNone).
Proof. split; reflexivity. Qed.

(** X17.  GET and DELETE never reach the network: [perform_action] raises
    TypeError before any request, for every match message, as their [call]
    has no parameter named [data]. *)
Lemma perform_action_keyword_mismatch
    (to_aws_message : MatchMessage.t -> string) (http : http_request -> Response)
    (name url : string) (m : MatchMessage.t) :
  perform_action to_aws_message http (mkPerformer GET name url) m
  = ([], Raise (TypeError "call() got an unexpected keyword argument 'data'"))
  /\ perform_action to_aws_message http (mkPerformer DELETE name url) m
     = ([], Raise (TypeError "call() got an unexpected keyword argument 'data'")).
Proof. split; reflexivity. Qed.

(** * Further properties of the code *)

(** ** Labels and their persisted form *)

(** X1.  A label written with [to_dynamodb_dict] is read back by
    [from_dynamodb_dict]; the persisted form has the two keys K and V. *)
Theorem from_to_dynamodb_dict (l : Label) :
  from_dynamodb_dict (to_dynamodb_dict l) = Ok l
  /\ map fst (to_dynamodb_dict l) = ["K"; "V"].
Proof. destruct l; split; reflexivity. Qed.

(** X2.  No two label kinds share a key: the labels that two kinds are
    declared to build are equal only for the same kind and the same value. *)
Theorem kinds_have_distinct_keys (k k' : label_kind) (v v' : string) :
  fixed_key_label k v = fixed_key_label k' v' <-> k = k' /\ v = v'.
Proof.
  unfold fixed_key_label. split.
  - intros H. injection H as Hk Hv. split; [|assumption].
    destruct k, k'; try reflexivity; discriminate Hk.
  - intros [-> ->]. reflexivity.
Qed.

(** ** Collecting action labels *)

Lemma contains_In (l : list Label) (x : Label) : contains l x = true <-> In x l.
Proof.
  unfold contains. rewrite existsb_exists. split.
  - intros [y [Hy He]]. apply Label_eqb_eq in He. now subst.
  - intros H. exists x. split; [assumption | apply Label_eqb_eq; reflexivity].
Qed.

Lemma collect_NoDup (rules : list ActionRule.t) (m : MatchMessage.t) (acc : list Label) :
  NoDup acc -> NoDup (collect_action_labels rules m acc).
Proof.
  revert acc. induction rules as [|r rules IH]; intros acc H; [exact H|].
  cbn [collect_action_labels]. unfold action_rule_applies_to_match_message. cbn [andb].
  destruct (contains acc (ActionRule.action_label r)) eqn:E; cbn [negb].
  - now apply IH.
  - apply IH. apply NoDup_app; [assumption | repeat constructor; intros [] | ].
    intros x Hx [<- | []].
    apply contains_In in Hx. congruence.
Qed.

Lemma collect_In (rules : list ActionRule.t) (m : MatchMessage.t) (acc : list Label) (x : Label) :
  In x (collect_action_labels rules m acc)
  <-> In x acc \/ In x (map ActionRule.action_label rules).
Proof.
  revert acc. induction rules as [|r rules IH]; intros acc.
  - cbn. tauto.
  - cbn [collect_action_labels map]. unfold action_rule_applies_to_match_message. cbn [andb].
    destruct (contains acc (ActionRule.action_label r)) eqn:E; cbn [negb].
    + rewrite IH. apply contains_In in E. cbn [In]. split; [tauto|].
      intros [H | [<- | H]]; tauto.
    + rewrite IH, in_app_iff. cbn [In]. tauto.
Qed.

Lemma collect_extends (rules : list ActionRule.t) (m : MatchMessage.t) (acc : list Label) :
  exists added, collect_action_labels rules m acc = (acc ++ added)%list.
Proof.
  revert acc. induction rules as [|r rules IH]; intros acc.
  - exists []. cbn. now rewrite List.app_nil_r.
  - cbn [collect_action_labels].
    destruct (_ && _).
    + destruct (IH (acc ++ [ActionRule.action_label r])%list) as [added ->].
      exists (ActionRule.action_label r :: added). now rewrite <- List.app_assoc.
    + apply IH.
Qed.

(** X3.  Whatever the list of rules, [get_action_labels]'s loop followed by
    [remove_superseded_actions] yields no label twice. *)
Theorem collected_labels_distinct (rules : list ActionRule.t) (m : MatchMessage.t) :
  NoDup (remove_superseded_actions (collect_action_labels rules m [])).
Proof. apply collect_NoDup. constructor. Qed.

(** X4.  Whatever the list of rules and the match message, the labels
    obtained are exactly the action labels of the rules: every rule
    contributes, none is filtered out. *)
Theorem collected_labels_are_rule_labels
    (rules : list ActionRule.t) (m : MatchMessage.t) (x : Label) :
  In x (remove_superseded_actions (collect_action_labels rules m []))
  <-> In x (map ActionRule.action_label rules).
Proof. unfold remove_superseded_actions. rewrite collect_In. cbn. tauto. Qed.

(** ** The handler, record by record *)

(** The loop body on one record, as [lambda_handler] binds the lookup. *)
Lemma loop_body_decoded (url : string) (from_sns_message : json -> result MatchMessage.t)
    (to_sns_message : MatchMessage.t -> json) (r : sqs_record) (m : MatchMessage.t) :
  outcome (decode_record from_sns_message r) = Ok m ->
  bind (decode_record from_sns_message r)
       (fun match_message =>
          evaluate_match_message url to_sns_message
            threat_exchange_reacting_is_enabled match_message)
  = evaluate_match_message url to_sns_message threat_exchange_reacting_is_enabled m.
Proof.
  unfold decode_record, lift, outcome. cbn [snd]. intros ->. cbn [bind].
  destruct (evaluate_match_message _ _ _ m). reflexivity.
Qed.

Lemma loop_body_raises (url : string) (from_sns_message : json -> result MatchMessage.t)
    (to_sns_message : MatchMessage.t -> json) (r : sqs_record) :
  exists t e,
    bind (decode_record from_sns_message r)
         (fun match_message =>
            evaluate_match_message url to_sns_message
              threat_exchange_reacting_is_enabled match_message)
    = (t, Raise e).
Proof.
  destruct (outcome (decode_record from_sns_message r)) as [m|e] eqn:E.
  - rewrite (loop_body_decoded url from_sns_message to_sns_message r m E).
    rewrite evaluate_enabled by reflexivity. eauto.
  - unfold decode_record, lift, outcome in *. cbn [snd] in E. rewrite E. cbn. eauto.
Qed.

(** What the handler does on an event is what its loop body does on the
    first record. *)
Lemma handler_first_record
    (url : string) (from_sns_message : json -> result MatchMessage.t)
    (to_sns_message : MatchMessage.t -> json)
    (r : sqs_record) (rest : list sqs_record) :
  exists t e,
    bind (decode_record from_sns_message r)
         (fun match_message =>
            evaluate_match_message url to_sns_message
              threat_exchange_reacting_is_enabled match_message)
    = (t, Raise e)
    /\ lambda_handler url from_sns_message to_sns_message (r :: rest) = (t, Raise e).
Proof.
  destruct (loop_body_raises url from_sns_message to_sns_message r) as [t [e H]].
  exists t, e. split; [exact H|].
  unfold lambda_handler, lambda_handler_with. cbn [for_each]. rewrite H. reflexivity.
Qed.

(** The trace of the handler: nothing, or that of the first record once it
    is decoded. *)
Lemma handler_trace
    (url : string) (from_sns_message : json -> result MatchMessage.t)
    (to_sns_message : MatchMessage.t -> json) (event : list sqs_record) :
  trace (lambda_handler url from_sns_message to_sns_message event) = []
  \/ exists m,
       trace (lambda_handler url from_sns_message to_sns_message event)
       = trace (evaluate_match_message url to_sns_message
                  threat_exchange_reacting_is_enabled m).
Proof.
  destruct event as [|r rest]; [left; reflexivity|].
  destruct (handler_first_record url from_sns_message to_sns_message r rest)
    as [t [e [Hb Hh]]].
  rewrite Hh.
  destruct (outcome (decode_record from_sns_message r)) as [m|e'] eqn:E.
  - right. exists m.
    rewrite (loop_body_decoded url from_sns_message to_sns_message r m E) in Hb.
    rewrite Hb. reflexivity.
  - left. unfold decode_record, lift, outcome in *. cbn [snd] in E.
    rewrite E in Hb. cbn in Hb. injection Hb as <- _. reflexivity.
Qed.


(** C10.  The handler resolves reaction labels at most once per event,
    however many records the event has: on an event of two records that both
    decode, nothing is done for the second.  And the label SAW_THIS_TOO
    cannot be built from the class as it is declared. *)
Theorem lambda_handler_resolves_at_most_once
    (url : string) (from_sns_message : json -> result MatchMessage.t)
    (to_sns_message : MatchMessage.t -> json) (event : list sqs_record) :
  length (filter is_resolution
            (trace (lambda_handler url from_sns_message to_sns_message event))) <= 1
  /\ (let first := MatchMessage.make "key" "hash" [] in
      let second := MatchMessage.make "key2" "hash2" [] in
      decode_record example_from_sns_message (example_record second) = ([], Ok second)
      /\ existsb (about "key2")
           (trace (lambda_handler url example_from_sns_message to_sns_message
                     [example_record first; example_record second])) = false)
  /\ construct KThreatExchangeReaction "SAW_THIS_TOO"
     = Raise (TypeError "'key' is a field but has no type annotation").
Proof.
  split; [|split; [split|]].
  - destruct (handler_trace url from_sns_message to_sns_message event) as [-> | [m' ->]];
      [cbn; lia|].
    rewrite evaluate_enabled by reflexivity. cbn. lia.
  - vm_compute. reflexivity.
  - destruct (handler_first_record url example_from_sns_message to_sns_message
                (example_record (MatchMessage.make "key" "hash" []))
                [example_record (MatchMessage.make "key2" "hash2" [])])
      as [t [e [Hb Hh]]].
    rewrite Hh.
    assert (D : outcome (decode_record example_from_sns_message
                           (example_record (MatchMessage.make "key" "hash" [])))
                = Ok (MatchMessage.make "key" "hash" []))
      by (vm_compute; reflexivity).
    rewrite (loop_body_decoded url example_from_sns_message to_sns_message _ _ D) in Hb.
    rewrite evaluate_enabled in Hb by reflexivity.
    injection Hb as <- _. reflexivity.
  - reflexivity.
Qed.

(** X5.  The handler never goes past the first record: on an event of
    several records it does and returns what it does on the first alone. *)
Theorem lambda_handler_stops_at_first_record
    (url : string) (from_sns_message : json -> result MatchMessage.t)
    (to_sns_message : MatchMessage.t -> json)
    (r : sqs_record) (rest : list sqs_record) :
  lambda_handler url from_sns_message to_sns_message (r :: rest)
  = lambda_handler url from_sns_message to_sns_message [r].
Proof.
  unfold lambda_handler, lambda_handler_with. cbn [for_each].
  destruct (loop_body_raises url from_sns_message to_sns_message r) as [t [e H]].
  rewrite H. reflexivity.
Qed.

(** X6.  The handler returns a response only for an event without records;
    on any other event it raises. *)
Theorem lambda_handler_returns_only_on_empty
    (url : string) (from_sns_message : json -> result MatchMessage.t)
    (to_sns_message : MatchMessage.t -> json) (event : list sqs_record) :
  (exists response,
      outcome (lambda_handler url from_sns_message to_sns_message event) = Ok response)
  <-> event = [].
Proof.
  split.
  - intros [response H]. destruct event as [|r rest]; [reflexivity|].
    unfold lambda_handler, lambda_handler_with in H. cbn [for_each] in H.
    destruct (loop_body_raises url from_sns_message to_sns_message r) as [t [e Hb]].
    rewrite Hb in H. discriminate H.
  - intros ->. eexists. reflexivity.
Qed.

(** X8.  Every message the handler sends goes to ACTIONS_QUEUE_URL. *)
Theorem lambda_handler_sends_to_actions_queue_only
    (url : string) (from_sns_message : json -> result MatchMessage.t)
    (to_sns_message : MatchMessage.t -> json) (event : list sqs_record) :
  forallb (sends_only_to url)
    (trace (lambda_handler url from_sns_message to_sns_message event)) = true.
Proof.
  destruct (handler_trace url from_sns_message to_sns_message event) as [-> | [m ->]];
    [reflexivity|].
  rewrite evaluate_enabled by reflexivity.
  cbn. now rewrite String.eqb_refl.
Qed.

(** ** Decoding the queue record *)





(** ** The two wire formats *)

(** X11.  The two wire formats are not read as one another: an encoded
    ActionMessage is refused by [ReactionMessage.from_aws_message] with
    KeyError('ReactionLabelValue'), an encoded ReactionMessage by
    [ActionMessage.from_aws_message] with KeyError('ActionLabelValue'). *)
Theorem wire_formats_do_not_mix
    (to_dict : BankedSignal.t -> json) (from_dict : json -> result BankedSignal.t)
    (from_to_dict : forall s, from_dict (to_dict s) = Ok s)
    (to_dict_wf : forall s, json_wf (to_dict s) = true)
    (m : ActionMessage.t) (r : ReactionMessage.t) :
  ReactionMessage.from_aws_message from_dict (ActionMessage.to_aws_message to_dict m)
  = Raise (KeyError "ReactionLabelValue")
  /\ ActionMessage.from_aws_message from_dict (ReactionMessage.to_aws_message to_dict r)
     = Raise (KeyError "ActionLabelValue").
Proof.
  split.
  - destruct m as [ck ch sigs [k v]].
    unfold ReactionMessage.from_aws_message, ActionMessage.to_aws_message.
    cbn [ActionMessage.content_key ActionMessage.content_hash
         ActionMessage.matching_banked_signals ActionMessage.action_label value].
    rewrite json_loads_dumps by (apply message_dict_wf; [assumption | reflexivity]).
    cbn. rewrite rmap_from_dict by assumption. reflexivity.
  - destruct r as [ck ch sigs [k v]].
    unfold ActionMessage.from_aws_message, ReactionMessage.to_aws_message.
    cbn [ReactionMessage.content_key ReactionMessage.content_hash
         ReactionMessage.matching_banked_signals ReactionMessage.reaction_label value].
    rewrite json_loads_dumps by (apply message_dict_wf; [assumption | reflexivity]).
    cbn. rewrite rmap_from_dict by assumption. reflexivity.
Qed.

(** The example action message read as a reaction message. *)
Lemma wire_formats_do_not_mix_witness :
  ReactionMessage.from_aws_message example_from_dict
    (ActionMessage.to_aws_message example_to_dict
       (ActionMessage.make "key" "hash" example_signals (ActionLabel "EnqueueForReview")))
  = Raise (KeyError "ReactionLabelValue").
Proof.
  apply (wire_formats_do_not_mix example_to_dict example_from_dict
           (fun s => match s with BankedSignal.make _ _ _ => eq_refl end)
           (fun s => match s with BankedSignal.make _ _ _ => eq_refl end)
           (ActionMessage.make "key" "hash" example_signals (ActionLabel "EnqueueForReview"))
           (ReactionMessage.make "key" "hash" example_signals
              (ThreatExchangeReactionLabel "SAW_THIS_TOO"))).
Defined.


(** ** Fields missing on the wire *)



(** ** Performers and the remote end *)

(** X16.  What [perform_action] does and returns does not depend on the
    remote end: it makes at most one request, to the performer's url with
    the performer's verb, and the response has no influence. *)
Theorem perform_action_ignores_response
    (to_aws_message : MatchMessage.t -> string)
    (http1 http2 : http_request -> Response)
    (self : WebhookActionPerformer) (m : MatchMessage.t) :
  perform_action to_aws_message http1 self m = perform_action to_aws_message http2 self m
  /\ length (fst (perform_action to_aws_message http1 self m)) <= 1
  /\ Forall (fun request => req_verb request = performer_verb self
                            /\ req_url request = url self)
            (fst (perform_action to_aws_message http1 self m)).
Proof.
  destruct self as [[] name u]; cbn; repeat split; auto; repeat constructor.
Qed.

(** ** Keys of the records *)

Lemma to_int_not_nil (z : Z) :
  Z.to_int z <> Decimal.Pos Decimal.Nil /\ Z.to_int z <> Decimal.Neg Decimal.Nil.
Proof.
  pose proof (DecimalZ.to_of (Z.to_int z)) as H.
  rewrite DecimalZ.of_to in H.
  split; intros E; rewrite E in H; discriminate H.
Qed.

Lemma str_of_int_injective (a b : Z) : str_of_int a = str_of_int b -> a = b.
Proof.
  unfold str_of_int. intros H.
  apply DecimalZ.to_int_inj.
  destruct (to_int_not_nil a) as [Ha1 Ha2], (to_int_not_nil b) as [Hb1 Hb2].
  pose proof (NilZero.isi (Z.to_int a) Ha1 Ha2) as Ea.
  pose proof (NilZero.isi (Z.to_int b) Hb1 Hb2) as Eb.
  rewrite H in Ea. congruence.
Qed.

Lemma append_injective (p a b : string) : p ++ a = p ++ b -> a = b.
Proof.
  induction p as [|c p IH]; cbn; intros H; [assumption|].
  injection H as H. now apply IH.
Qed.

(** X18.  Two match records have the same primary key (PK, SK) exactly when
    they have the same content key and the same te_id. *)
Theorem match_record_key_identifies
    (datetime : Type) (isoformat : datetime -> string)
    (r1 r2 : PDQMatchRecord datetime) :
  (assoc_get "PK" (PDQMatchRecord_to_dynamodb_item isoformat r1)
   = assoc_get "PK" (PDQMatchRecord_to_dynamodb_item isoformat r2)
   /\ assoc_get "SK" (PDQMatchRecord_to_dynamodb_item isoformat r1)
      = assoc_get "SK" (PDQMatchRecord_to_dynamodb_item isoformat r2))
  <-> (match_content_key r1 = match_content_key r2 /\ te_id r1 = te_id r2).
Proof.
  destruct r1 as [k1 h1 t1 i1 e1], r2 as [k2 h2 t2 i2 e2].
  cbn [PDQMatchRecord_to_dynamodb_item assoc_get String.eqb Ascii.eqb Bool.eqb
       match_content_key te_id].
  cbn. split.
  - intros [Hpk Hsk]. injection Hpk as Hpk. injection Hsk as Hsk.
    split; [assumption | now apply str_of_int_injective].
  - intros [-> ->]. split; reflexivity.
Qed.

(** X19.  The sort key of a hash record is never the sort key of a match
    record, so neither overwrites the other under one content key; and in
    the item of a match record PK, GSI1-PK and GSI2-PK are pairwise
    different. *)
Theorem hash_and_match_records_never_collide
    (datetime : Type) (isoformat : datetime -> string)
    (h : PipelinePDQHashRecord datetime) (r : PDQMatchRecord datetime) :
  assoc_get "SK" (PipelinePDQHashRecord_to_dynamodb_item isoformat h)
  <> assoc_get "SK" (PDQMatchRecord_to_dynamodb_item isoformat r)
  /\ assoc_get "PK" (PDQMatchRecord_to_dynamodb_item isoformat r)
     <> assoc_get "GSI1-PK" (PDQMatchRecord_to_dynamodb_item isoformat r)
  /\ assoc_get "GSI1-PK" (PDQMatchRecord_to_dynamodb_item isoformat r)
     <> assoc_get "GSI2-PK" (PDQMatchRecord_to_dynamodb_item isoformat r)
  /\ assoc_get "PK" (PDQMatchRecord_to_dynamodb_item isoformat r)
     <> assoc_get "GSI2-PK" (PDQMatchRecord_to_dynamodb_item isoformat r).
Proof.
  cbn. repeat split; intros H; discriminate H.
Qed.

(** X20.  The queue message and the item of a hash record agree: the item's
    PK, SK, ContentHash and HashType are those of the message's key, type and
    hash. *)
Theorem hash_record_item_agrees_with_sqs_message
    (datetime : Type) (isoformat : datetime -> string)
    (h : PipelinePDQHashRecord datetime) :
  let it := PipelinePDQHashRecord_to_dynamodb_item isoformat h in
  let msg := PipelinePDQHashRecord_to_sqs_message h in
  option_map (fun k => ItemStr (PDQRecordBase.get_dynamodb_content_key k)) (assoc_get "key" msg)
  = assoc_get "PK" it
  /\ option_map (fun t => ItemStr (PDQRecordBase.get_dynamodb_type_key t)) (assoc_get "type" msg)
     = assoc_get "SK" it
  /\ option_map ItemStr (assoc_get "hash" msg) = assoc_get "ContentHash" it
  /\ option_map ItemStr (assoc_get "type" msg) = assoc_get "HashType" it.
Proof. repeat split. Qed.
